(** * uniplot: terminal plotting, the top-level API of [uniplot/uniplot.py]

    The development embeds the functions of [uniplot/uniplot.py] ([plot],
    [plot_gen], [_process_action], [_erase_previous_lines],
    [_generate_plot_str_list], [_generate_plot_str], [plot_to_string] and
    [histogram]) together with the collaborators they call.  Python floats are
    IEEE 754 binary64 numbers and are embedded as Rocq's primitive floats;
    Python ints are embedded as [Z]; keyword arguments are finite maps from
    option names to Python values; printing, erasing and key reads are events
    appended to a log that is threaded through a small state and error
    monad. *)

From Stdlib Require Import ZArith List String Ascii Bool Lia Floats.
From stdpp Require Import base option list gmap strings.
Import ListNotations.

Local Open Scope string_scope.
Local Open Scope list_scope.
Local Open Scope Z_scope.

(* A decimal literal such as [0.1] denotes the nearest binary64 number, as it
   does in Python. *)
Set Warnings "-inexact-float".

(** ** Python floats and ints *)

Module PyFloat.

(** [float(z)] for a Python int [z]: the nearest binary64 number. *)
Definition of_Z (z : Z) : float :=
  SF2Prim (binary_normalize prec emax z 0 false).

(** [a > b] on floats; false as soon as one side is NaN. *)
Definition gt (a b : float) : bool := (b <? a)%float.

(** [n / d] rounded to the nearest integer, ties to the even one. *)
Definition round_half_even (n d : Z) : Z :=
  let q := n / d in
  let r := n mod d in
  if 2 * r <? d then q
  else if d <? 2 * r then q + 1
  else if Z.even q then q else q + 1.

(** The integer nearest to a finite float; [None] for NaN and infinities. *)
Definition to_Z_nearest (f : float) : option Z :=
  match Prim2SF f with
  | S754_zero _ => Some 0
  | S754_finite s m e =>
      let mag := if 0 <=? e then Z.pos m * 2 ^ e
                 else round_half_even (Z.pos m) (2 ^ (- e)) in
      Some (if s then - mag else mag)
  | S754_infinity _ => None
  | S754_nan => None
  end.

(** The smaller and the larger of two floats, as Python's [min] and [max]
    compute them: the first argument is kept unless the second is strictly
    smaller (larger). *)
Definition min (a b : float) : float := if (b <? a)%float then b else a.
Definition max (a b : float) : float := if (a <? b)%float then b else a.

End PyFloat.

(** ** Python values, keyword arguments, exceptions *)

Inductive pyval : Type :=
  | VNone
  | VBool (b : bool)
  | VInt (z : Z)
  | VFloat (f : float)
  | VStr (s : string)
  | VList (l : list string).       (* a list of labels, by their display text *)

(** Python's truth value of an object, as [if v:] and [while v:] test it. *)
Definition truthy (v : pyval) : bool :=
  match v with
  | VNone => false
  | VBool b => b
  | VInt z => negb (z =? 0)
  | VFloat f => negb (f =? 0)%float
  | VStr s => negb (String.eqb s "")
  | VList l => match l with [] => false | _ :: _ => true end
  end.

(** [**kwargs]: a dict from option names to values. *)
Abbreviation kwargs_t := (gmap string pyval).

(** [kwargs.update(n_kwargs)]: the entries of [n_kwargs] win. *)
Definition dict_update (kwargs n_kwargs : kwargs_t) : kwargs_t :=
  n_kwargs ∪ kwargs.

(** [d.get(key, default)]. *)
Definition dict_get (d : kwargs_t) (key : string) (default : pyval) : pyval :=
  match d !! key with
  | Some v => v
  | None => default
  end.

Inductive error : Type :=
  | ShapeMismatch
  | NoPositiveDataForLogScale
  | AssertionError
  | ZeroDivisionError
  | OverflowError
  | AttributeError.

Inductive result (A : Type) : Type :=
  | Ok (a : A)
  | Err (e : error).
Arguments Ok {A} a.
Arguments Err {A} e.

(** ** The terminal: an event log and the keys still to be typed *)

Inductive event : Type :=
  | EvPrint (text : string)        (* [print(text)] *)
  | EvGetch (key : string)         (* [getch()] returned [key] *)
  | EvErase (n : Z).               (* [elements.erase_previous_lines(n)] *)

Record World : Type := mkWorld {
  log : list event;
  pending_keys : list string
}.

(** How a call ends: it returns, it raises, it waits for a key that never
    comes, or the bound on loop iterations of the embedding was reached. *)
Inductive outcome (A : Type) : Type :=
  | Done (a : A)
  | Raised (e : error)
  | Blocked
  | OutOfFuel.
Arguments Done {A} a.
Arguments Raised {A} e.
Arguments Blocked {A}.
Arguments OutOfFuel {A}.

Definition IO (A : Type) : Type := World → outcome A * World.

#[global] Instance IO_ret : MRet IO := λ A a w, (Done a, w).

#[global] Instance IO_bind : MBind IO := λ A B f m w,
  match m w with
  | (Done a, w') => f a w'
  | (Raised e, w') => (Raised e, w')
  | (Blocked, w') => (Blocked, w')
  | (OutOfFuel, w') => (OutOfFuel, w')
  end.

Definition emit (e : event) : IO unit :=
  λ w, (Done tt, mkWorld (log w ++ [e]) (pending_keys w)).

(** [print(text)]. *)
Definition print (text : string) : IO unit := emit (EvPrint text).

(** [uniplot.getch.getch()]: blocks until one key is available. *)
Definition getch : IO string :=
  λ w, match pending_keys w with
       | [] => (Blocked, w)
       | k :: ks => (Done k, mkWorld (log w ++ [EvGetch k]) ks)
       end.

Definition raise {A : Type} (e : error) : IO A := λ w, (Raised e, w).

Definition out_of_fuel {A : Type} : IO A := λ w, (OutOfFuel, w).

(** The number of keys that are still to be typed. *)
Definition keys_to_come : IO nat := λ w, (Done (length (pending_keys w)), w).

(** A fallible pure computation run inside [IO]. *)
Definition lift_result {A : Type} (r : result A) : IO A :=
  match r with
  | Ok a => mret a
  | Err e => raise e
  end.

(** ** [uniplot.multi_series.MultiSeries] *)

(** Modelled from the spec: a sample of a series: a float (possibly NaN or
    infinite) or a missing value ([None]). *)
Definition sample : Type := option float.

(** Modelled from the spec: the data a caller passes for [xs] or [ys]: one
    flat sequence or a sequence of sequences. *)
Inductive array_like : Type :=
  | Flat (values : list sample)
  | Nested (series : list (list sample)).

(** Modelled from the spec: a sample is valid on an axis when it is present
    and finite and, on a logarithmic axis, strictly positive. *)
Definition valid_value (as_log : bool) (v : sample) : option float :=
  match v with
  | Some f =>
      if is_finite f && (negb as_log || (0 <? f)%float) then Some f else None
  | None => None
  end.

(** Modelled from the spec: a point is valid when both of its coordinates
    are. *)
Definition valid_point (x_log y_log : bool) (p : sample * sample)
  : option (float * float) :=
  match valid_value x_log p.1, valid_value y_log p.2 with
  | Some x, Some y => Some (x, y)
  | _, _ => None
  end.

Module MultiSeries.

(** Modelled from the spec: the canonical series of [uniplot/multi_series.py]:
    one x series and one y series per plotted series. *)
Record t : Type := mk {
  xs : list (list sample);
  ys : list (list sample);
  is_multi_dimensional : bool
}.

(** Modelled from the spec: a flat input is one series, a nested input one
    series per inner sequence. *)
Definition series_list (a : array_like) : list (list sample) :=
  match a with
  | Flat values => [values]
  | Nested series => series
  end.

(** Modelled from the spec: whether an input is multi-series, by its nesting. *)
Definition is_multi (a : array_like) : bool :=
  match a with
  | Flat _ => false
  | Nested _ => true
  end.

(** Modelled from the spec: the index positions [0 .. N-1] of a series of [N]
    samples. *)
Definition index_positions (s : list sample) : list sample :=
  map (λ i, Some (PyFloat.of_Z (Z.of_nat i))) (seq 0 (length s)).

(** Modelled from the spec: every x series has the length of the y series at
    the same position. *)
Fixpoint lengths_agree (xss yss : list (list sample)) : bool :=
  match xss, yss with
  | x :: xss', y :: yss' =>
      (length x =? length y)%nat && lengths_agree xss' yss'
  | _, _ => true
  end.

(** Modelled from the spec: one x series per y series: the given one, or index
    positions where none was given. *)
Fixpoint pair_series (xss yss : list (list sample)) : list (list sample) :=
  match yss with
  | [] => []
  | y :: yss' =>
      match xss with
      | x :: xss' => x :: pair_series xss' yss'
      | [] => index_positions y :: pair_series [] yss'
      end
  end.

(** Modelled from the spec: the constructor [MultiSeries(xs=, ys=)] of
    [uniplot/multi_series.py], which is not among the sources. A flat input is
    one series, a nested input one series per inner sequence; a missing [xs]
    gives every series its own index positions; the construction fails with
    [ShapeMismatch] if x and y are both multi-series with different series
    counts, or if an x series and its corresponding y series differ in
    length. *)
Definition new (xs : option array_like) (ys : array_like) : result t :=
  let yss := series_list ys in
  match xs with
  | None => Ok (mk (map index_positions yss) yss (is_multi ys))
  | Some xa =>
      let xss := series_list xa in
      if is_multi xa && is_multi ys && negb (length xss =? length yss)%nat
      then Err ShapeMismatch
      else if negb (lengths_agree xss yss) then Err ShapeMismatch
      else Ok (mk (pair_series xss yss) yss (is_multi ys))
  end.

(** Modelled from the spec: the points of all series that are valid for the
    given scales. *)
Definition valid_points (x_log y_log : bool) (ms : t)
  : list (float * float) :=
  concat (zip_with (λ x y, omap (valid_point x_log y_log) (zip x y))
                   (xs ms) (ys ms)).

(** Modelled from the spec: the smallest of the values, or the default when
    there is none. *)
Definition minimum (default : float) (vs : list float) : float :=
  match vs with
  | [] => default
  | v :: vs' => fold_left PyFloat.min vs' v
  end.

(** Modelled from the spec: the largest of the values, or the default when
    there is none. *)
Definition maximum (default : float) (vs : list float) : float :=
  match vs with
  | [] => default
  | v :: vs' => fold_left PyFloat.max vs' v
  end.

(** Modelled from the spec: the aggregate statistics [x_min()], [x_max()],
    [y_min()], [y_max()] of [uniplot/multi_series.py]: the extrema over all
    valid points of all series, with the default range [0, 1] when there is no
    valid point. *)
Definition x_min (ms : t) : float :=
  minimum 0%float (map fst (valid_points false false ms)).

(** Modelled from the spec: see [x_min]. *)
Definition x_max (ms : t) : float :=
  maximum 1%float (map fst (valid_points false false ms)).

(** Modelled from the spec: see [x_min]. *)
Definition y_min (ms : t) : float :=
  minimum 0%float (map snd (valid_points false false ms)).

(** Modelled from the spec: see [x_min]. *)
Definition y_max (ms : t) : float :=
  maximum 1%float (map snd (valid_points false false ms)).

End MultiSeries.

(** ** [uniplot.options.Options] *)

Module Options.

(** Modelled from the spec: the option record of [uniplot/options.py]: the
    bounds, scales and size of the view, the display flags, the zoom factor,
    the pan step and the bounds captured at construction. *)
Record t : Type := mk {
  x_min : float;
  x_max : float;
  y_min : float;
  y_max : float;
  x_as_log : bool;
  y_as_log : bool;
  width : Z;
  height : Z;
  lines : bool;
  color : bool;
  force_ascii : bool;
  title : option string;
  x_unit : string;
  y_unit : string;
  legend_labels : option (list string);
  interactive : bool;
  zoom_factor : float;
  pan_step : float;
  initial_bounds : float * float * float * float
}.

(** [options.interactive = b]. *)
Definition set_interactive (o : t) (b : bool) : t :=
  mk (x_min o) (x_max o) (y_min o) (y_max o) (x_as_log o) (y_as_log o)
     (width o) (height o) (lines o) (color o) (force_ascii o) (title o)
     (x_unit o) (y_unit o) (legend_labels o) b (zoom_factor o)
     (pan_step o) (initial_bounds o).

(** Modelled from the spec: the assignment of the four bounds. *)
Definition set_bounds (o : t) (xlo xhi ylo yhi : float) : t :=
  mk xlo xhi ylo yhi (x_as_log o) (y_as_log o)
     (width o) (height o) (lines o) (color o) (force_ascii o) (title o)
     (x_unit o) (y_unit o) (legend_labels o) (interactive o)
     (zoom_factor o) (pan_step o) (initial_bounds o).

(** Modelled from the spec: the four bounds of the view. *)
Definition bounds (o : t) : float * float * float * float :=
  (x_min o, x_max o, y_min o, y_max o).

(** Modelled from the spec: bounds a view may take: finite, with [lo < hi]
    strictly. *)
Definition valid_bounds (lo hi : float) : bool :=
  is_finite lo && is_finite hi && (lo <? hi)%float.

(** Modelled from the spec: a mutation that would leave the valid bounds is a
    no-op. *)
Definition try_set_bounds (o : t) (xlo xhi ylo yhi : float) : t :=
  if valid_bounds xlo xhi && valid_bounds ylo yhi
  then set_bounds o xlo xhi ylo yhi
  else o.

(** Modelled from the spec: the view mutations of [uniplot/options.py], which
    is not among the sources. A pan shifts both bounds of one axis by
    [pan_step * (max - min)]; a zoom by [factor] recomputes the bounds of both
    axes around their centers, the span divided by [factor]; a reset restores
    the bounds captured at construction. *)
Definition shift_view_left (o : t) : t :=
  let step := (pan_step o * (x_max o - x_min o))%float in
  try_set_bounds o (x_min o - step)%float (x_max o - step)%float
                 (y_min o) (y_max o).

(** Modelled from the spec: see [shift_view_left]. *)
Definition shift_view_right (o : t) : t :=
  let step := (pan_step o * (x_max o - x_min o))%float in
  try_set_bounds o (x_min o + step)%float (x_max o + step)%float
                 (y_min o) (y_max o).

(** Modelled from the spec: see [shift_view_left]. *)
Definition shift_view_down (o : t) : t :=
  let step := (pan_step o * (y_max o - y_min o))%float in
  try_set_bounds o (x_min o) (x_max o)
                 (y_min o - step)%float (y_max o - step)%float.

(** Modelled from the spec: see [shift_view_left]. *)
Definition shift_view_up (o : t) : t :=
  let step := (pan_step o * (y_max o - y_min o))%float in
  try_set_bounds o (x_min o) (x_max o)
                 (y_min o + step)%float (y_max o + step)%float.

(** Modelled from the spec: the bounds of one axis around their center, the
    span divided by [factor]. *)
Definition zoom_axis (factor lo hi : float) : float * float :=
  let center := ((lo + hi) / 2)%float in
  let half := ((hi - lo) / (2 * factor))%float in
  ((center - half)%float, (center + half)%float).

(** Modelled from the spec: the zoom recomputes the bounds of both axes. *)
Definition zoom (o : t) (factor : float) : t :=
  let '(xlo, xhi) := zoom_axis factor (x_min o) (x_max o) in
  let '(ylo, yhi) := zoom_axis factor (y_min o) (y_max o) in
  try_set_bounds o xlo xhi ylo yhi.

(** Modelled from the spec: a factor above one shrinks the span. *)
Definition zoom_in (o : t) : t := zoom o (zoom_factor o).

(** Modelled from the spec: the reciprocal factor widens the span. *)
Definition zoom_out (o : t) : t := zoom o (1 / zoom_factor o)%float.

(** Modelled from the spec: the bounds captured at construction are
    restored. *)
Definition reset_view (o : t) : t :=
  let '(xlo, xhi, ylo, yhi) := initial_bounds o in
  set_bounds o xlo xhi ylo yhi.

End Options.

(** ** Collaborators outside the plotting core

    The natural logarithm of the math library, the defaults of the option
    record, the colour assignment, the glyph sets and the text formatting of
    titles, axis labels and legend entries are taken as parameters: every
    statement below holds for each choice of them. *)

Class Collaborators : Type := {
  (* [math.log] *)
  math_log : float → float;
  default_width : Z;
  default_height : Z;
  default_zoom_factor : float;
  default_pan_step : float;
  (* the colour index of the series at an index *)
  color_of_series : nat → nat;
  (* the glyph of a marked cell, by [force_ascii] *)
  point_glyph : bool → string;
  (* a glyph in the colour of an index *)
  colorize : nat → string → string;
  (* the title, laid out on a width *)
  title_line : option string → Z → string;
  (* the summary of the bounds [(x_min, x_max, y_min, y_max)] *)
  bounds_line : float * float * float * float → string;
  (* the tick labels of the x axis: scale, bounds, width, unit *)
  x_axis_line : bool → float → float → Z → string → string;
  (* the tick label of a row of the y axis: scale, bounds, height, unit, row *)
  y_axis_label : bool → float → float → Z → string → Z → string;
  (* the legend entry of a series: colour mode, index, label *)
  legend_line : bool → nat → string → string;
  (* [elements.compute_bar_chart_histogram_points(s, bin_edges)] *)
  compute_bar_chart_histogram_points :
    list sample → list float → list sample * list sample
}.

#[global] Instance result_ret : MRet result := λ A a, Ok a.

#[global] Instance result_bind : MBind result := λ A B f r,
  match r with
  | Ok a => f a
  | Err e => Err e
  end.

(** ** [uniplot.param_initializer] *)

Module param_initializer.
Section with_collaborators.
Context `{Collaborators}.

(** Modelled from the spec: a numeric option, if given. *)
Definition kw_float (kwargs : kwargs_t) (key : string) : option float :=
  match kwargs !! key with
  | Some (VFloat f) => Some f
  | Some (VInt z) => Some (PyFloat.of_Z z)
  | _ => None
  end.

(** Modelled from the spec: a flag, by the truth value of what was given. *)
Definition kw_bool (kwargs : kwargs_t) (key : string) (d : bool) : bool :=
  match kwargs !! key with
  | Some v => truthy v
  | None => d
  end.

(** Modelled from the spec: an integer option, or its default. *)
Definition kw_int (kwargs : kwargs_t) (key : string) (d : Z) : Z :=
  match kwargs !! key with
  | Some (VInt z) => z
  | _ => d
  end.

(** Modelled from the spec: a textual option, if given. *)
Definition kw_str (kwargs : kwargs_t) (key : string) : option string :=
  match kwargs !! key with
  | Some (VStr s) => Some s
  | _ => None
  end.

(** Modelled from the spec: a list of labels, if given. *)
Definition kw_labels (kwargs : kwargs_t) (key : string)
  : option (list string) :=
  match kwargs !! key with
  | Some (VList l) => Some l
  | _ => None
  end.

(** Modelled from the spec: a degenerate range [lo = hi] gets a span: one unit
    to each side, or ten percent of the value on a logarithmic axis. *)
Definition widen (as_log : bool) (lo hi : float) : float * float :=
  if (lo =? hi)%float then
    if as_log then ((lo * 0.9)%float, (hi * 1.1)%float)
    else ((lo - 1)%float, (hi + 1)%float)
  else (lo, hi).

(** Modelled from the spec: the bounds of one axis: the user's bound where
    given, else the extremum of the valid values; on a logarithmic axis a
    minimum that is not positive is replaced by the smallest positive valid
    value, and the derivation fails if there is no valid value. *)
Definition derive_axis (as_log : bool) (user_lo user_hi : option float)
    (values : list float) : result (float * float) :=
  match values with
  | [] =>
      if as_log then Err NoPositiveDataForLogScale
      else Ok (widen false (default 0%float user_lo)
                           (default 1%float user_hi))
  | _ :: _ =>
      let data_min := MultiSeries.minimum 0%float values in
      let data_max := MultiSeries.maximum 1%float values in
      let lo := default data_min user_lo in
      let hi := default data_max user_hi in
      let lo := if as_log && negb (0 <? lo)%float then data_min else lo in
      Ok (widen as_log lo hi)
  end.

(** Modelled from the spec: [validate_and_transform_options] of
    [uniplot/param_initializer.py], which is not among the sources. It reads
    the recognised options from the keyword arguments, derives the bounds of
    each axis independently and captures them as the initial bounds of the
    view. *)
Definition validate_and_transform_options
    (series : MultiSeries.t) (kwargs : kwargs_t) : result Options.t :=
  let x_log := kw_bool kwargs "x_as_log" false in
  let y_log := kw_bool kwargs "y_as_log" false in
  let points := MultiSeries.valid_points x_log y_log series in
  '(xlo, xhi) ← derive_axis x_log (kw_float kwargs "x_min")
                            (kw_float kwargs "x_max") (map fst points);
  '(ylo, yhi) ← derive_axis y_log (kw_float kwargs "y_min")
                            (kw_float kwargs "y_max") (map snd points);
  mret (Options.mk xlo xhi ylo yhi x_log y_log
          (kw_int kwargs "width" default_width)
          (kw_int kwargs "height" default_height)
          (kw_bool kwargs "lines" false)
          (kw_bool kwargs "color" false)
          (kw_bool kwargs "force_ascii" false)
          (kw_str kwargs "title")
          (default "" (kw_str kwargs "x_unit"))
          (default "" (kw_str kwargs "y_unit"))
          (kw_labels kwargs "legend_labels")
          (kw_bool kwargs "interactive" false)
          (default default_zoom_factor (kw_float kwargs "zoom_factor"))
          (default default_pan_step (kw_float kwargs "pan_step"))
          (xlo, xhi, ylo, yhi)).

End with_collaborators.
End param_initializer.

(** ** [uniplot.sections] and [uniplot.plot_elements] *)

Definition newline : string := String (ascii_of_nat 10) EmptyString.

Module elements.

(** [elements.erase_previous_lines(n)]: a directive to the terminal. *)
Definition erase_previous_lines (n : Z) : IO unit := emit (EvErase n).

End elements.

Module sections.
Section with_collaborators.
Context `{Collaborators}.

(** Modelled from the spec: a grid cell: its glyph, its colour index and the
    count of the marks it received. *)
Record cell : Type := mk_cell {
  glyph : option string;
  color_index : option nat;
  intensity : nat
}.

(** Modelled from the spec: a cell no series has marked. *)
Definition empty_cell : cell := mk_cell None None 0.

(** Modelled from the spec: the grid, as rows of cells. *)
Definition grid : Type := list (list cell).

(** Modelled from the spec: a grid of [height] rows and [width] columns of
    empty cells. *)
Definition empty_grid (o : Options.t) : grid :=
  replicate (Z.to_nat (Options.height o))
            (replicate (Z.to_nat (Options.width o)) empty_cell).

(** Modelled from the spec: the coordinate mapper along one axis: the
    logarithm on a logarithmic axis, linear interpolation of [lo, hi] onto [0,
    dim - 1], rounding to the nearest cell, clamping into the grid. *)
Definition map_axis (as_log : bool) (lo hi : float) (dim : Z) (v : float)
  : option Z :=
  let t := λ u : float, if as_log then math_log u else u in
  let pos := ((t v - t lo) / (t hi - t lo) * PyFloat.of_Z (dim - 1))%float in
  match PyFloat.to_Z_nearest pos with
  | Some z => Some (Z.max 0 (Z.min (dim - 1) z))
  | None => None
  end.

(** Modelled from the spec: [map(x, y)]: the cell [(row, col)] of a point, or
    nothing for an invalid point. *)
Definition map_point (o : Options.t) (p : sample * sample)
  : option (Z * Z) :=
  match valid_point (Options.x_as_log o) (Options.y_as_log o) p with
  | Some (x, y) =>
      match map_axis (Options.y_as_log o) (Options.y_min o)
                     (Options.y_max o) (Options.height o) y,
            map_axis (Options.x_as_log o) (Options.x_min o)
                     (Options.x_max o) (Options.width o) x with
      | Some r, Some c => Some (r, c)
      | _, _ => None
      end
  | None => None
  end.

(** Modelled from the spec: the cells of the straight segment between two
    cells. *)
Definition line_cells (a b : Z * Z) : list (Z * Z) :=
  let dr := b.1 - a.1 in
  let dc := b.2 - a.2 in
  let n := Z.max (Z.abs dr) (Z.abs dc) in
  if n =? 0 then [a]
  else map (λ i, (a.1 + (2 * i * dr + n) / (2 * n),
                  a.2 + (2 * i * dc + n) / (2 * n)))
           (seqZ 0 (n + 1)).

(** Modelled from the spec: the segments between consecutive cells. *)
Fixpoint segments (cells : list (Z * Z)) : list (Z * Z) :=
  match cells with
  | a :: rest =>
      match rest with
      | b :: _ => line_cells a b ++ segments rest
      | [] => []
      end
  | [] => []
  end.

(** Modelled from the spec: the cells one series marks: in [lines] mode the
    segments between consecutive valid points, then, always, the valid points
    themselves. *)
Definition series_cells (o : Options.t) (s : list sample * list sample)
  : list (Z * Z) :=
  let cells := omap (map_point o) (zip s.1 s.2) in
  (if Options.lines o then segments cells else []) ++ cells.

(** Modelled from the spec: a mark sets the glyph and the colour of the series
    and counts. *)
Definition mark_cell (o : Options.t) (si : nat) (c : cell) : cell :=
  mk_cell (Some (point_glyph (Options.force_ascii o)))
          (Some (color_of_series si))
          (S (intensity c)).

(** Modelled from the spec: a mark in the grid; a cell outside of it is left
    out. *)
Definition mark (o : Options.t) (si : nat) (g : grid) (rc : Z * Z) : grid :=
  if (0 <=? rc.1) && (0 <=? rc.2)
  then alter (alter (mark_cell o si) (Z.to_nat rc.2)) (Z.to_nat rc.1) g
  else g.

(** Modelled from the spec: the series are drawn in input order, later ones
    over earlier ones. *)
Fixpoint rasterize_from (o : Options.t) (si : nat)
    (series : list (list sample * list sample)) (g : grid) : grid :=
  match series with
  | [] => g
  | s :: rest =>
      rasterize_from o (S si) rest (fold_left (mark o si) (series_cells o s) g)
  end.

(** Modelled from the spec: the grid rasterizer. The series are drawn in input
    order onto an empty grid of [height] rows and [width] columns. *)
Definition rasterize (o : Options.t) (series : MultiSeries.t) : grid :=
  rasterize_from o 0 (zip (MultiSeries.xs series) (MultiSeries.ys series))
                 (empty_grid o).

(** Modelled from the spec: the text of a cell: blank, or its glyph, coloured
    in colour mode. *)
Definition cell_text (o : Options.t) (c : cell) : string :=
  match glyph c with
  | None => " "
  | Some g =>
      if Options.color o then
        match color_index c with
        | Some k => colorize k g
        | None => g
        end
      else g
  end.

(** Modelled from the spec: the header is the title line and the bounds line. *)
Definition fixed_header_lines : Z := 2.
(** Modelled from the spec: the lines of the body that are neither grid rows
    nor legend: the two frame lines and the x axis labels. *)
Definition fixed_footer_lines : Z := 3.

(** Modelled from the spec: [sections.generate_header], not among the sources:
    the title line and the summary of the current bounds. *)
Definition generate_header (o : Options.t) : list string :=
  [title_line (Options.title o) (Options.width o);
   bounds_line (Options.bounds o)].

(** Modelled from the spec: [sections.generate_body_raw_elements], not among
    the sources: the labels of the x axis, one label of the y axis per grid
    row, and the grid as a matrix of characters, top row first. *)
Definition generate_body_raw_elements
    (series : MultiSeries.t) (o : Options.t)
  : string * list string * list (list string) :=
  (x_axis_line (Options.x_as_log o) (Options.x_min o) (Options.x_max o)
               (Options.width o) (Options.x_unit o),
   map (λ i, y_axis_label (Options.y_as_log o) (Options.y_min o)
               (Options.y_max o) (Options.height o) (Options.y_unit o)
               (Options.height o - 1 - Z.of_nat i))
       (seq 0 (Z.to_nat (Options.height o))),
   map (map (cell_text o)) (reverse (rasterize o series))).

(** Modelled from the spec: a horizontal line of the frame. *)
Definition frame_line (left right : string) (o : Options.t) : string :=
  left +:+ String.concat "" (replicate (Z.to_nat (Options.width o)) "─")
       +:+ right.

(** Modelled from the spec: one legend line per label, when labels are given. *)
Definition legend (o : Options.t) : list string :=
  match Options.legend_labels o with
  | Some labels => imap (legend_line (Options.color o)) labels
  | None => []
  end.

(** Modelled from the spec: [sections.generate_body], not among the sources:
    the grid rows with their y labels inside a frame, the x axis labels below
    it, and one legend line per label when labels are given. The frame and the
    x axis labels are the [fixed_footer_lines]. *)
Definition generate_body (x_axis_labels : string)
    (y_axis_labels : list string) (pixel_character_matrix : list (list string))
    (o : Options.t) : list string :=
  [frame_line "┌" "┐" o]
  ++ zip_with (λ row label, "│" +:+ String.concat "" row +:+ "│ " +:+ label)
              pixel_character_matrix y_axis_labels
  ++ [frame_line "└" "┘" o; x_axis_labels]
  ++ legend o.

End with_collaborators.
End sections.

(** ** [uniplot/uniplot.py] *)

(** [str.lower()] on a key.  ASCII capitals are folded; so is the Kelvin sign
    (U+212A, three bytes in UTF-8), the one other character whose lower case
    is a key of the controller.  No other string has a lower case among the
    keys that [_process_action] recognises, so the dispatch below is the one
    of the source for every key. *)
Definition lower_ascii (c : ascii) : ascii :=
  let n := nat_of_ascii c in
  if ((65 <=? n) && (n <=? 90))%nat then ascii_of_nat (n + 32) else c.

Fixpoint map_string (f : ascii → ascii) (s : string) : string :=
  match s with
  | EmptyString => EmptyString
  | String c rest => String (f c) (map_string f rest)
  end.

Definition kelvin_sign : string :=
  String (ascii_of_nat 226) (String (ascii_of_nat 132)
    (String (ascii_of_nat 170) EmptyString)).

Definition lower (s : string) : string :=
  if String.eqb s kelvin_sign then "k" else map_string lower_ascii s.

(** The escape key, ["\x1b"]. *)
Definition ESC : string := String (ascii_of_nat 27) EmptyString.

Definition prompt : string :=
  "Move h/j/k/l, zoom u/n, or r to reset. ESC/q to quit".

Section uniplot.
Context `{Collaborators}.

Import param_initializer sections.

(** [_process_action(options)].  The source mutates [options] in place and
    returns the flag; the embedding returns the mutated record with it. *)
Definition _process_action (options : Options.t) : IO (Options.t * bool) :=
  print prompt;;
  key ← getch;
  let key_pressed := lower key in
  if String.eqb key_pressed "h" then
    mret (Options.shift_view_left options, true)
  else if String.eqb key_pressed "l" then
    mret (Options.shift_view_right options, true)
  else if String.eqb key_pressed "j" then
    mret (Options.shift_view_down options, true)
  else if String.eqb key_pressed "k" then
    mret (Options.shift_view_up options, true)
  else if String.eqb key_pressed "u" then
    mret (Options.zoom_in options, true)
  else if String.eqb key_pressed "n" then
    mret (Options.zoom_out options, true)
  else if String.eqb key_pressed "r" then
    mret (Options.reset_view options, true)
  else if existsb (String.eqb key_pressed) ["q"; ESC] then
    mret (options, false)
  else mret (options, true).

Definition nr_lines_to_erase (options : Options.t) : Z :=
  let nr_lines_to_erase := Options.height options + 4 in
  match Options.legend_labels options with
  | Some labels => nr_lines_to_erase + Z.of_nat (length labels)
  | None => nr_lines_to_erase
  end.

(** [_erase_previous_lines(options)]. *)
Definition _erase_previous_lines (options : Options.t) : IO unit :=
  elements.erase_previous_lines (nr_lines_to_erase options).

(** [_generate_plot_str_list(series, options, with_header)]. *)
Definition _generate_plot_str_list (series : MultiSeries.t)
    (options : Options.t) (with_header : bool) : list string :=
  let header := if with_header then generate_header options else [] in
  let '(x_axis_labels, y_axis_labels, pixel_character_matrix) :=
    generate_body_raw_elements series options in
  let body := generate_body x_axis_labels y_axis_labels
                            pixel_character_matrix options in
  header ++ body.

(** [_generate_plot_str(series, options, with_header)]. *)
Definition _generate_plot_str (series : MultiSeries.t)
    (options : Options.t) (with_header : bool) : string :=
  String.concat newline (_generate_plot_str_list series options with_header).

(** [plot_to_string(ys, xs, **kwargs)]. *)
Definition plot_to_string (ys : array_like) (xs : option array_like)
    (kwargs : kwargs_t) : IO (list string) :=
  series ← lift_result (MultiSeries.new xs ys);
  options ← lift_result (validate_and_transform_options series kwargs);
  mret (_generate_plot_str_list series options true).

(** The [while options.interactive:] loop of [plot].  Every iteration reads
    one key, so a bound of one more than the number of keys still to come
    is never reached ([interactive_loop_run] below). *)
Fixpoint interactive_loop (fuel : nat) (series : MultiSeries.t)
    (options : Options.t) : IO unit :=
  if Options.interactive options then
    match fuel with
    | O => out_of_fuel
    | S fuel' =>
        '(options, continue) ← _process_action options;
        let options := Options.set_interactive options continue in
        _erase_previous_lines options;;
        print (_generate_plot_str series options false);;
        interactive_loop fuel' series options
    end
  else mret tt.

(** [plot(ys, xs, **kwargs)]. *)
Definition plot (ys : array_like) (xs : option array_like)
    (kwargs : kwargs_t) : IO unit :=
  series ← lift_result (MultiSeries.new xs ys);
  options ← lift_result (validate_and_transform_options series kwargs);
  print (_generate_plot_str series options true);;
  n ← keys_to_come;
  interactive_loop (S n) series options.

(** *** [plot_gen]

    A generator is embedded by the points at which it is suspended: at the
    first [yield] it holds its keyword arguments, at the [yield] of the loop
    it also holds the options of the frame it has just printed. *)
Inductive gen_state : Type :=
  | AtFirstYield (kwargs : kwargs_t)
  | AtLoopYield (kwargs : kwargs_t) (options : Options.t).

(** What a caller sends: [(ys, xs, n_kwargs)], where [n_kwargs] is a dict or
    [None]. *)
Definition message : Type :=
  array_like * option array_like * option kwargs_t.

(** [plot_gen] called with its keyword arguments, followed by the [next()]
    that runs it to its first [yield]. *)
Definition plot_gen (kwargs : kwargs_t) : gen_state := AtFirstYield kwargs.

Definition gen_kwargs (st : gen_state) : kwargs_t :=
  match st with
  | AtFirstYield kwargs => kwargs
  | AtLoopYield kwargs _ => kwargs
  end.

(** The head of the loop body: build the series, validate the options, print
    the frame, and suspend. *)
Definition gen_frame (kwargs : kwargs_t) (ys : array_like)
    (xs : option array_like) : IO gen_state :=
  series ← lift_result (MultiSeries.new xs ys);
  options ← lift_result (validate_and_transform_options series kwargs);
  print (_generate_plot_str series options true);;
  mret (AtLoopYield kwargs options).

(** [gen.send((ys, xs, n_kwargs))]: the generator runs from the [yield] it
    is suspended at to the next one. *)
Definition gen_send (st : gen_state) (msg : message) : IO gen_state :=
  let '(ys, xs, n_kwargs) := msg in
  match st with
  | AtFirstYield kwargs => gen_frame kwargs ys xs
  | AtLoopYield kwargs options =>
      let kwargs :=
        match n_kwargs with
        | Some d => if bool_decide (d = ∅) then kwargs
                    else dict_update kwargs d
        | None => kwargs
        end in
      match n_kwargs with
      | None => raise AttributeError
      | Some d =>
          (if truthy (dict_get d "erase" (VBool true))
           then _erase_previous_lines options else mret tt);;
          gen_frame kwargs ys xs
      end
  end.

(** A session: the messages sent one after the other. *)
Fixpoint gen_run (st : gen_state) (msgs : list message) : IO gen_state :=
  match msgs with
  | [] => mret st
  | msg :: rest => st' ← gen_send st msg; gen_run st' rest
  end.

(** *** [histogram] *)

(** [range(n)]. *)
Definition range (n : Z) : list Z := seqZ 0 n.

(** The bin edges of [histogram], from the limits to the list comprehension.
    [float / int] converts the int first, which overflows for an int beyond
    the floats, and raises on a zero divisor. *)
Definition histogram_bin_edges (multi_series : MultiSeries.t) (bins : Z)
    (bins_min bins_max : option float) : result (list float) :=
  let bins_min_real := default (MultiSeries.y_min multi_series) bins_min in
  let bins_max_real := default (MultiSeries.y_max multi_series) bins_max in
  if negb (PyFloat.gt bins_max_real bins_min_real) then Err AssertionError
  else
    let delta := (bins_max_real - bins_min_real)%float in
    let bins_min_real :=
      match bins_min with
      | None => (bins_min_real - 0.1 * delta)%float
      | Some _ => bins_min_real
      end in
    let bins_max_real :=
      match bins_max with
      | None => (bins_max_real + 0.1 * delta)%float
      | Some _ => bins_max_real
      end in
    match range (bins + 1) with
    | [] => Ok []
    | indices =>
        if is_infinity (PyFloat.of_Z bins) then Err OverflowError
        else if bins =? 0 then Err ZeroDivisionError
        else Ok (map (λ i, (bins_min_real
                            + PyFloat.of_Z i * (bins_max_real - bins_min_real)
                              / PyFloat.of_Z bins)%float) indices)
    end.

(** [histogram(xs, bins, bins_min, bins_max, **kwargs)]. *)
Definition histogram (xs : array_like) (bins : Z)
    (bins_min bins_max : option float) (kwargs : kwargs_t) : IO unit :=
  multi_series ← lift_result (MultiSeries.new None xs);
  let kwargs := <["lines" := dict_get kwargs "lines" (VBool true)]> kwargs in
  bin_edges ← lift_result
    (histogram_bin_edges multi_series bins bins_min bins_max);
  let charts := map (λ s, compute_bar_chart_histogram_points s bin_edges)
                    (MultiSeries.ys multi_series) in
  plot (Nested (map snd charts)) (Some (Nested (map fst charts))) kwargs.

End uniplot.

(** ** The interactive controller of the specification *)

Inductive controller_state : Type := Running | Stopped.

Inductive action : Type :=
  | PanLeft | PanRight | PanDown | PanUp
  | ZoomIn | ZoomOut | ResetView
  | Stop | NoOp.

(** The transition table from [Running], row by row; a key that has no row is
    a no-op. *)
Definition transition_table : list (string * action) :=
  [("h", PanLeft); ("l", PanRight);
   ("j", PanDown); ("k", PanUp);
   ("u", ZoomIn);
   ("n", ZoomOut);
   ("r", ResetView);
   ("q", Stop); (ESC, Stop)].

Definition table_action (key : string) : action :=
  match find (λ row, String.eqb key row.1) transition_table with
  | Some row => row.2
  | None => NoOp
  end.

(** What an action does to the view, and the state it leads to. *)
Definition perform (a : action) (o : Options.t)
  : Options.t * controller_state :=
  match a with
  | PanLeft => (Options.shift_view_left o, Running)
  | PanRight => (Options.shift_view_right o, Running)
  | PanDown => (Options.shift_view_down o, Running)
  | PanUp => (Options.shift_view_up o, Running)
  | ZoomIn => (Options.zoom_in o, Running)
  | ZoomOut => (Options.zoom_out o, Running)
  | ResetView => (Options.reset_view o, Running)
  | Stop => (o, Stopped)
  | NoOp => (o, Running)
  end.

Definition is_running (s : controller_state) : bool :=
  match s with
  | Running => true
  | Stopped => false
  end.

(** The key as the controller sees it leads to [Stopped]. *)
Definition is_quit (key : string) : bool :=
  match table_action (lower key) with
  | Stop => true
  | _ => false
  end.

(** The options after one pass of the loop of [plot] that read [key]. *)
Definition key_step (o : Options.t) (key : string) : Options.t :=
  let '(o', s) := perform (table_action (lower key)) o in
  Options.set_interactive o' (is_running s).

(** The keys a run of the loop reads from the keys to come, the keys it
    leaves, and whether it reached [Stopped]. *)
Fixpoint read_keys (keys : list string) : list string * list string * bool :=
  match keys with
  | [] => ([], [], false)
  | k :: rest =>
      if is_quit k then ([k], rest, true)
      else let '(consumed, unread, stopped) := read_keys rest in
           (k :: consumed, unread, stopped)
  end.

(** A log made of one block per key read: the prompt, the key read, one
    erase, one print. *)
Inductive rerender_blocks : list string → list event → Prop :=
  | blocks_nil : rerender_blocks [] []
  | blocks_cons key keys n frame events :
      rerender_blocks keys events →
      rerender_blocks (key :: keys)
        (EvPrint prompt :: EvGetch key :: EvErase n :: EvPrint frame :: events).

(** The keys read in a log, in order. *)
Definition keys_read (events : list event) : list string :=
  omap (λ e, match e with EvGetch k => Some k | _ => None end) events.

Section derived.
Context `{Collaborators}.

Import param_initializer sections.

(** The events of the passes of the loop that read [keys], from the options
    [o]. *)
Fixpoint loop_events (series : MultiSeries.t) (o : Options.t)
    (keys : list string) : list event :=
  match keys with
  | [] => []
  | k :: rest =>
      let o' := key_step o k in
      [EvPrint prompt; EvGetch k; EvErase (nr_lines_to_erase o');
       EvPrint (_generate_plot_str series o' false)]
      ++ loop_events series o' rest
  end.

(** The options when the loop has read [keys]. *)
Definition options_after (o : Options.t) (keys : list string) : Options.t :=
  fold_left key_step keys o.

(** The number of legend lines of a plot. *)
Definition legend_lines (o : Options.t) : Z :=
  match Options.legend_labels o with
  | Some labels => Z.of_nat (length labels)
  | None => 0
  end.




End derived.

(** ** Shape disagreement, in the words of the specification *)

(** The inputs disagree in shape: x is given and either x and y are both
    multi-series with different series counts, or some x series and the y
    series at its position have different lengths. *)
Definition shape_mismatch (xs : option array_like) (ys : array_like) : Prop :=
  ∃ xa, xs = Some xa ∧
    ((MultiSeries.is_multi xa = true ∧ MultiSeries.is_multi ys = true
      ∧ length (MultiSeries.series_list xa)
        ≠ length (MultiSeries.series_list ys))
     ∨ ∃ i x y, MultiSeries.series_list xa !! i = Some x
                ∧ MultiSeries.series_list ys !! i = Some y
                ∧ length x ≠ length y).

(** ** A concrete choice of collaborators, to run the definitions *)

(** A stand-in for the logarithm: the base 2 logarithm with its fraction
    interpolated linearly. *)
Definition reference_log (f : float) : float :=
  let '(m, e) := Z.frexp f in (PyFloat.of_Z e + 2 * (m - 1))%float.

Definition reference_collaborators : Collaborators := {|
  math_log := reference_log;
  default_width := 20;
  default_height := 6;
  default_zoom_factor := 2%float;
  default_pan_step := 0.1%float;
  color_of_series := λ i, (i mod 8)%nat;
  point_glyph := λ force_ascii, if force_ascii then "#" else "█";
  colorize := λ _ g, g;
  title_line := λ title _, default "" title;
  bounds_line := λ _, "";
  x_axis_line := λ _ _ _ _ unit, unit;
  y_axis_label := λ _ _ _ _ unit _, unit;
  legend_line := λ _ _ label, label;
  compute_bar_chart_histogram_points := λ s edges, (map Some edges, s)
|}.

(** ** Concrete inputs *)

Definition result_get {A : Type} (d : A) (r : result A) : A :=
  match r with
  | Ok a => a
  | Err _ => d
  end.

(** The values [1, 3, -2] of the acceptance tests, plotted interactively with
    one legend label. *)
Definition example_ys : array_like :=
  Flat [Some 1%float; Some 3%float; Some (-2)%float].

Definition example_kwargs : kwargs_t :=
  <["interactive" := VBool true]> (<["legend_labels" := VList ["one"]]> ∅).

Definition example_series : MultiSeries.t :=
  Eval vm_compute in
    result_get (MultiSeries.mk [] [] false) (MultiSeries.new None example_ys).

Definition example_options : Options.t :=
  Eval vm_compute in
    result_get
      (Options.mk 0 1 0 1 false false 0 0 false false false None "" "" None
                  false 2 0.1 (0, 1, 0, 1))%float
      (param_initializer.validate_and_transform_options
         (H := reference_collaborators) example_series example_kwargs).

(** The values of the acceptance test on logarithmic plotting: negative,
    zero, NaN and missing values among valid ones, on both axes. *)
Definition mixed_values : array_like :=
  Flat [Some (-1)%float; Some 0%float; Some 1%float; Some nan;
        Some 20.09%float; None; Some 12.2%float].

Definition log_kwargs : kwargs_t :=
  <["x_as_log" := VBool true]> (<["y_as_log" := VBool true]> ∅).

Definition mixed_series : MultiSeries.t :=
  Eval vm_compute in
    result_get (MultiSeries.mk [] [] false)
               (MultiSeries.new (Some mixed_values) mixed_values).



Definition spread_values : array_like :=
  Flat [Some 1%float; Some 2%float; Some 4%float].

Definition spread_series : MultiSeries.t :=
  Eval vm_compute in
    result_get (MultiSeries.mk [] [] false)
               (MultiSeries.new None spread_values).

(** Two x values against three y values. *)
Definition short_xs : option array_like :=
  Some (Flat [Some 1%float; Some 2%float]).

Definition long_ys : array_like :=
  Flat [Some 1%float; Some 2%float; Some 3%float].

(** ** Sessions of [plot_gen] *)

(** The value that a sequence of messages sent last for an option, if any of
    them sent one. *)
Definition last_sent (key : string) (msgs : list message) : option pyval :=
  fold_left (λ acc msg,
               match msg.2 with
               | Some d => match d !! key with
                           | Some v => Some v
                           | None => acc
                           end
               | None => acc
               end) msgs None.

Section sessions.
Context `{Collaborators}.

Import param_initializer sections.

(** The erase a message asks for, of the frame on the screen. *)
Definition erase_events (d : kwargs_t) (on_screen : Options.t) : list event :=
  if truthy (dict_get d "erase" (VBool true))
  then [EvErase (nr_lines_to_erase on_screen)]
  else [].

(** The log of a session that is suspended in the loop with the stored
    options [kwargs] and the frame of [on_screen] on the screen, and the
    options stored at its end: per message the erase of the frame on the
    screen, unless the message says otherwise, and the print of the frame of
    its data under the stored options with its own merged in. *)
Inductive session_log
  : kwargs_t → Options.t → list message → list event → kwargs_t → Prop :=
  | session_nil kwargs on_screen :
      session_log kwargs on_screen [] [] kwargs
  | session_cons kwargs on_screen ys xs d msgs series options events final :
      MultiSeries.new xs ys = Ok series →
      validate_and_transform_options series (dict_update kwargs d)
      = Ok options →
      session_log (dict_update kwargs d) options msgs events final →
      session_log kwargs on_screen ((ys, xs, Some d) :: msgs)
        (erase_events d on_screen
         ++ EvPrint (String.concat newline
                       (_generate_plot_str_list series options true))
         :: events)
        final.

End sessions.

(** A session in its loop, with the frame of the example on the screen, and
    three messages: a title, a taller grid that is not to erase the frame
    before it, and no options. *)
Definition sample_messages : list message :=
  [(example_ys, None, Some (<["title" := VStr "A"]> ∅));
   (example_ys, None,
    Some (<["erase" := VBool false]> (<["height" := VInt 8]> ∅)));
   (example_ys, None, Some ∅)].

Definition sample_session : outcome gen_state * World :=
  Eval vm_compute in
    gen_run (H := reference_collaborators) (AtLoopYield ∅ example_options)
            sample_messages (mkWorld [] []).

Definition sample_session_state : gen_state :=
  Eval vm_compute in
    match sample_session.1 with
    | Done st => st
    | _ => AtFirstYield ∅
    end.

Definition sample_session_world : World :=
  Eval vm_compute in sample_session.2.

(** ** The re-render of the interactive loop, in the words of the
    specification *)

Section redraw.
Context `{Collaborators}.

Import param_initializer sections.

(** The events of the passes that read [keys], from the options [o] of the
    picture on the screen: the prompt, the key read, the erase of the
    previous output region (the prompt line and the body that is on the
    screen, the one drawn for the options before the key), and one redraw
    of the body for the options after the key. *)
Fixpoint redraw_events (series : MultiSeries.t) (o : Options.t)
    (keys : list string) : list event :=
  match keys with
  | [] => []
  | k :: rest =>
      let o' := key_step o k in
      [EvPrint prompt; EvGetch k;
       EvErase (1 + Z.of_nat (length (_generate_plot_str_list series o
                                                              false)));
       EvPrint (_generate_plot_str series o' false)]
      ++ redraw_events series o' rest
  end.




End redraw.





(** * Properties *)

(** ** The monad *)

Lemma bind_done {A B : Type} (m : IO A) (f : A → IO B) w a w' :
  m w = (Done a, w') → (m ≫= f) w = f a w'.
Proof. intros Hm. unfold mbind, IO_bind. by rewrite Hm. Qed.

Lemma bind_raised {A B : Type} (m : IO A) (f : A → IO B) w e w' :
  m w = (Raised e, w') → (m ≫= f) w = (Raised e, w').
Proof. intros Hm. unfold mbind, IO_bind. by rewrite Hm. Qed.

Lemma lift_result_ok {A : Type} (r : result A) a w :
  r = Ok a → lift_result r w = (Done a, w).
Proof. by intros ->. Qed.

Lemma lift_result_err {A : Type} (r : result A) e w :
  r = Err e → lift_result r w = (Raised e, w).
Proof. by intros ->. Qed.

(** ** The key handler *)

Section controller.
Context `{Collaborators}.

Import param_initializer sections.

(** With a key to read, the handler prints the prompt, reads the key and
    performs the action of the table at the folded key. *)
Lemma process_action_run options key keys lg :
  _process_action options (mkWorld lg (key :: keys)) =
  (Done ((perform (table_action (lower key)) options).1,
         is_running (perform (table_action (lower key)) options).2),
   mkWorld (lg ++ [EvPrint prompt; EvGetch key]) keys).
Proof.
  unfold _process_action, print, emit, getch, mbind, IO_bind, table_action.
  cbn [log pending_keys transition_table find fst snd existsb].
  rewrite <- app_assoc. cbn [app].
  repeat (case (String.eqb (lower key) _); [reflexivity|]).
  reflexivity.
Qed.

(** Without a key the handler waits, the prompt printed. *)
Lemma process_action_blocked options lg :
  _process_action options (mkWorld lg []) =
  (Blocked, mkWorld (lg ++ [EvPrint prompt]) []).
Proof. reflexivity. Qed.

(** The table, read as a case distinction on the key. *)
Lemma table_action_cases (key : string) :
  table_action key =
  match key with
  | "h" => PanLeft
  | "l" => PanRight
  | "j" => PanDown
  | "k" => PanUp
  | "u" => ZoomIn
  | "n" => ZoomOut
  | "r" => ResetView
  | "q" => Stop
  | _ => if String.eqb key ESC then Stop else NoOp
  end.
Proof.
  destruct key as [|a rest]; [reflexivity|].
  destruct a as [[] [] [] [] [] [] [] []]; destruct rest; reflexivity.
Qed.

(** C2: from [Running], the key handler performs on every key exactly the
    action the transition table gives for it (h/l pan left/right, j/k pan
    down/up, u zooms in, n zooms out, r resets the view, q and ESC lead to
    [Stopped], every other key changes nothing and stays [Running]); for
    every key it returns normally.  The key is the one the handler sees,
    folded to lower case. *)
Theorem process_action_follows_table options key keys lg :
  let a := table_action (lower key) in
  _process_action options (mkWorld lg (key :: keys)) =
    (Done ((perform a options).1, is_running (perform a options).2),
     mkWorld (lg ++ [EvPrint prompt; EvGetch key]) keys)
  ∧ a = match lower key with
        | "h" => PanLeft
        | "l" => PanRight
        | "j" => PanDown
        | "k" => PanUp
        | "u" => ZoomIn
        | "n" => ZoomOut
        | "r" => ResetView
        | "q" => Stop
        | _ => if String.eqb (lower key) ESC then Stop else NoOp
        end
  ∧ perform a options =
      match a with
      | PanLeft => (Options.shift_view_left options, Running)
      | PanRight => (Options.shift_view_right options, Running)
      | PanDown => (Options.shift_view_down options, Running)
      | PanUp => (Options.shift_view_up options, Running)
      | ZoomIn => (Options.zoom_in options, Running)
      | ZoomOut => (Options.zoom_out options, Running)
      | ResetView => (Options.reset_view options, Running)
      | Stop => (options, Stopped)
      | NoOp => (options, Running)
      end.
Proof.
  intros a. split; [apply process_action_run|].
  split; [apply table_action_cases|reflexivity].
Qed.

(** Capitals are folded before the dispatch: [H] pans left as [h] does. *)
Example process_action_capital options keys lg :
  _process_action options (mkWorld lg ("H" :: keys)) =
  (Done (Options.shift_view_left options, true),
   mkWorld (lg ++ [EvPrint prompt; EvGetch "H"]) keys).
Proof. by rewrite process_action_run. Qed.

End controller.

(** ** The interactive loop of [plot] *)

Section interactive.
Context `{Collaborators}.

Import param_initializer sections.

Lemma interactive_set_interactive o b :
  Options.interactive (Options.set_interactive o b) = b.
Proof. reflexivity. Qed.

Lemma is_quit_perform key o :
  is_running (perform (table_action (lower key)) o).2 = negb (is_quit key).
Proof. unfold is_quit. by destruct (table_action (lower key)). Qed.

Lemma key_step_interactive o key :
  Options.interactive (key_step o key) = negb (is_quit key).
Proof.
  unfold key_step. rewrite <- (is_quit_perform key o).
  by destruct (perform (table_action (lower key)) o).
Qed.

(** One pass of the loop that finds a key. *)
Lemma loop_pass fuel series options key keys lg :
  Options.interactive options = true →
  interactive_loop (S fuel) series options (mkWorld lg (key :: keys)) =
  interactive_loop fuel series (key_step options key)
    (mkWorld (lg ++ loop_events series options [key]) keys).
Proof.
  intros Hi. cbn [interactive_loop loop_events]. rewrite Hi.
  erewrite bind_done by apply process_action_run.
  unfold key_step.
  destruct (perform (table_action (lower key)) options) as [o' s'].
  cbn [fst snd].
  unfold _erase_previous_lines, elements.erase_previous_lines, print, emit.
  unfold mbind at 1 2. unfold IO_bind. cbn [log pending_keys].
  rewrite app_nil_r. repeat rewrite <- app_assoc. reflexivity.
Qed.

(** The loop, run on the keys to come: it reads keys up to the first one
    that quits, each followed by one erase and one print, and returns; with
    no such key it ends waiting at the prompt.  The bound on the number of
    passes is not reached. *)
Lemma interactive_loop_run series keys :
  ∀ options lg fuel,
    Options.interactive options = true →
    (length keys < fuel)%nat →
    interactive_loop fuel series options (mkWorld lg keys) =
    ((if (read_keys keys).2 then Done tt else Blocked),
     mkWorld (lg ++ loop_events series options (read_keys keys).1.1
                 ++ (if (read_keys keys).2 then [] else [EvPrint prompt]))
             (read_keys keys).1.2).
Proof.
  induction keys as [|key keys IH]; intros options lg fuel Hi Hfuel.
  - destruct fuel as [|fuel]; [cbn in Hfuel; lia|].
    cbn [interactive_loop]. rewrite Hi.
    unfold mbind, IO_bind. by rewrite process_action_blocked.
  - destruct fuel as [|fuel]; [cbn in Hfuel; lia|].
    rewrite loop_pass by done.
    cbn [read_keys]. destruct (is_quit key) eqn:Hq.
    + cbn [fst snd]. rewrite app_nil_r.
      destruct fuel; cbn [interactive_loop];
        by rewrite key_step_interactive, Hq.
    + rewrite IH.
      * destruct (read_keys keys) as [[consumed unread] stopped].
        cbn [fst snd loop_events]. by repeat rewrite <- app_assoc.
      * by rewrite key_step_interactive, Hq.
      * cbn in Hfuel. lia.
Qed.

Lemma read_keys_split keys :
  keys = (read_keys keys).1.1 ++ (read_keys keys).1.2.
Proof.
  induction keys as [|key keys IH]; [done|].
  cbn [read_keys]. destruct (is_quit key); [done|].
  destruct (read_keys keys) as [[consumed unread] stopped].
  cbn [fst snd] in *. by rewrite IH at 1.
Qed.

Lemma read_keys_stopped keys :
  (read_keys keys).2 = true →
  ∃ pre q, (read_keys keys).1.1 = pre ++ [q] ∧ is_quit q = true
           ∧ Forall (λ k, is_quit k = false) pre.
Proof.
  induction keys as [|key keys IH]; [done|].
  cbn [read_keys]. destruct (is_quit key) eqn:Hq.
  - intros _. by exists [], key.
  - destruct (read_keys keys) as [[consumed unread] stopped].
    cbn [fst snd] in *. intros Hs.
    destruct (IH Hs) as (pre & q & -> & Hquit & Hpre).
    exists (key :: pre), q. split; [done|]. split; [done|].
    by constructor.
Qed.

Lemma read_keys_waiting keys :
  (read_keys keys).2 = false →
  (read_keys keys).1.2 = [] ∧
  Forall (λ k, is_quit k = false) (read_keys keys).1.1.
Proof.
  induction keys as [|key keys IH]; [done|].
  cbn [read_keys]. destruct (is_quit key) eqn:Hq; [done|].
  destruct (read_keys keys) as [[consumed unread] stopped].
  cbn [fst snd] in *. intros Hs. destruct (IH Hs) as [-> Hc].
  split; [done|]. by constructor.
Qed.

Lemma read_keys_until_quit pre q post :
  Forall (λ k, is_quit k = false) pre → is_quit q = true →
  read_keys (pre ++ q :: post) = (pre ++ [q], post, true).
Proof.
  intros Hpre Hq. induction Hpre as [|k pre Hk _ IH].
  - cbn. by rewrite Hq.
  - cbn [app read_keys]. by rewrite Hk, IH.
Qed.

Lemma loop_events_blocks series keys :
  ∀ options, rerender_blocks keys (loop_events series options keys).
Proof.
  induction keys as [|key keys IH]; intros options; cbn [loop_events app].
  - constructor.
  - constructor. apply IH.
Qed.

Lemma loop_events_app series keys keys' :
  ∀ options,
    loop_events series options (keys ++ keys') =
    loop_events series options keys
    ++ loop_events series (options_after options keys) keys'.
Proof.
  induction keys as [|key keys IH]; intros options; [done|].
  cbn [app loop_events]. rewrite IH. by repeat rewrite <- app_assoc.
Qed.

Lemma rerender_blocks_keys_read keys events :
  rerender_blocks keys events → keys_read events = keys.
Proof.
  induction 1 as [|key keys n frame events _ IH]; [done|]. cbn. by f_equal.
Qed.

(** [plot] up to its loop. *)
Lemma plot_run ys xs kwargs series options lg keys :
  MultiSeries.new xs ys = Ok series →
  validate_and_transform_options series kwargs = Ok options →
  plot ys xs kwargs (mkWorld lg keys) =
  interactive_loop (S (length keys)) series options
    (mkWorld (lg ++ [EvPrint (_generate_plot_str series options true)]) keys).
Proof.
  intros Hs Ho. unfold plot.
  erewrite bind_done by (by apply lift_result_ok).
  erewrite bind_done by (by apply lift_result_ok).
  reflexivity.
Qed.

(** Without the [interactive] option [plot] prints one frame and returns. *)
Lemma plot_not_interactive ys xs kwargs series options lg keys :
  MultiSeries.new xs ys = Ok series →
  validate_and_transform_options series kwargs = Ok options →
  Options.interactive options = false →
  plot ys xs kwargs (mkWorld lg keys) =
  (Done tt,
   mkWorld (lg ++ [EvPrint (_generate_plot_str series options true)]) keys).
Proof.
  intros Hs Ho Hi. rewrite (plot_run _ _ _ _ _ _ _ Hs Ho).
  cbn [interactive_loop]. by rewrite Hi.
Qed.

End interactive.

Section interactive_session.
Context `{Collaborators}.

Import param_initializer sections.

(** The header is what [with_header] adds in front of the body. *)
Lemma generate_plot_str_list_header series options :
  _generate_plot_str_list series options true =
  generate_header options ++ _generate_plot_str_list series options false.
Proof.
  unfold _generate_plot_str_list.
  by destruct (generate_body_raw_elements series options) as [[? ?] ?].
Qed.

(** C10: after the q or ESC that ends the session the loop erases and
    redraws once more, the body without the header, and then returns: the
    log ends with the prompt, the key, one erase and one print of the body
    for the options as they are in [Stopped]. *)
Theorem plot_final_redraw ys xs kwargs series options lg pre q post :
  MultiSeries.new xs ys = Ok series →
  validate_and_transform_options series kwargs = Ok options →
  Options.interactive options = true →
  Forall (λ k, is_quit k = false) pre →
  is_quit q = true →
  ∃ events final,
    plot ys xs kwargs (mkWorld lg (pre ++ q :: post)) =
      (Done tt,
       mkWorld (lg ++ EvPrint (_generate_plot_str series options true)
                   :: events
                   ++ [EvPrint prompt; EvGetch q;
                       EvErase (nr_lines_to_erase final);
                       EvPrint (_generate_plot_str series final false)])
               post)
    ∧ keys_read events = pre
    ∧ final = options_after options (pre ++ [q])
    ∧ Options.interactive final = false
    ∧ _generate_plot_str_list series final true =
        generate_header final ++ _generate_plot_str_list series final false.
Proof.
  intros Hs Ho Hi Hpre Hq.
  exists (loop_events series options pre),
         (options_after options (pre ++ [q])).
  split.
  { rewrite (plot_run _ _ _ _ _ _ _ Hs Ho).
    rewrite interactive_loop_run by (done || (cbn; lia)).
    rewrite read_keys_until_quit by done. cbn [fst snd].
    rewrite loop_events_app. cbn [loop_events].
    unfold options_after. rewrite fold_left_app. cbn [fold_left].
    rewrite !app_nil_r. by rewrite <- !app_assoc. }
  split; [apply rerender_blocks_keys_read, loop_events_blocks|].
  split; [done|].
  split; [|apply generate_plot_str_list_header].
  unfold options_after. rewrite fold_left_app. cbn [fold_left].
  by rewrite key_step_interactive, Hq.
Qed.

End interactive_session.

(** ** [histogram] *)



Section histogram.
Context `{Collaborators}.

Import param_initializer sections.

(** Without [xs] the construction of the series cannot fail. *)
Lemma new_without_xs ys :
  ∃ series, MultiSeries.new None ys = Ok series
            ∧ MultiSeries.ys series = MultiSeries.series_list ys.
Proof. eexists. split; reflexivity. Qed.

(** The assertion of [histogram] fails, nothing printed. *)
Lemma histogram_assertion xs bins bins_min bins_max kwargs multi_series w :
  MultiSeries.new None xs = Ok multi_series →
  PyFloat.gt (default (MultiSeries.y_max multi_series) bins_max)
             (default (MultiSeries.y_min multi_series) bins_min) = false →
  histogram_bin_edges multi_series bins bins_min bins_max = Err AssertionError
  ∧ histogram xs bins bins_min bins_max kwargs w = (Raised AssertionError, w).
Proof.
  intros Hs Hgt.
  assert (histogram_bin_edges multi_series bins bins_min bins_max
          = Err AssertionError) as He.
  { unfold histogram_bin_edges. by rewrite Hgt. }
  split; [done|]. unfold histogram.
  erewrite bind_done by (by apply lift_result_ok).
  by erewrite bind_raised by (by apply lift_result_err).
Qed.


End histogram.

(** ** [plot_gen] *)

Lemma dict_update_lookup (kwargs d : kwargs_t) (key : string) :
  dict_update kwargs d !! key =
  match d !! key with
  | Some v => Some v
  | None => kwargs !! key
  end.
Proof.
  unfold dict_update. rewrite lookup_union.
  by destruct (d !! key), (kwargs !! key).
Qed.

Lemma dict_update_empty (kwargs : kwargs_t) : dict_update kwargs ∅ = kwargs.
Proof. unfold dict_update. by rewrite (left_id_L ∅ (∪)). Qed.

Section generator.
Context `{Collaborators}.

Import param_initializer sections.

Lemma gen_frame_kwargs kwargs ys xs w st w' :
  gen_frame kwargs ys xs w = (Done st, w') → gen_kwargs st = kwargs.
Proof.
  unfold gen_frame, print, emit, mbind, IO_bind.
  destruct (lift_result (MultiSeries.new xs ys) w) as [[series| | |] w1];
    try done.
  destruct (lift_result (validate_and_transform_options series kwargs) w1)
    as [[options| | |] w2]; try done.
  cbn. by intros [= <- _].
Qed.

(** From the second message on, the options sent are merged into the stored
    ones before the frame is drawn. *)
Lemma gen_send_merges kwargs options ys xs d w st w' :
  gen_send (AtLoopYield kwargs options) (ys, xs, Some d) w = (Done st, w') →
  gen_kwargs st = dict_update kwargs d.
Proof.
  cbn [gen_send]. case_bool_decide as Hd.
  - subst d. rewrite dict_update_empty.
    unfold mbind at 1. unfold IO_bind.
    destruct (_ w) as [[[]| | |] w1]; try done. apply gen_frame_kwargs.
  - unfold mbind at 1. unfold IO_bind.
    destruct (_ w) as [[[]| | |] w1]; try done. apply gen_frame_kwargs.
Qed.

(** An option that was merged stays until a later message overrides it. *)
Lemma gen_send_keeps kwargs options ys xs d w st w' key :
  gen_send (AtLoopYield kwargs options) (ys, xs, Some d) w = (Done st, w') →
  d !! key = None →
  gen_kwargs st !! key = kwargs !! key.
Proof.
  intros Hsend Hkey. rewrite (gen_send_merges _ _ _ _ _ _ _ _ Hsend).
  by rewrite dict_update_lookup, Hkey.
Qed.

(** The options sent with the first message are not looked at. *)
Lemma gen_send_first_ignores_options kwargs ys xs n_kwargs n_kwargs' :
  gen_send (plot_gen kwargs) (ys, xs, n_kwargs) =
  gen_send (plot_gen kwargs) (ys, xs, n_kwargs').
Proof. reflexivity. Qed.

Lemma gen_send_first_kwargs kwargs ys xs n_kwargs w st w' :
  gen_send (plot_gen kwargs) (ys, xs, n_kwargs) w = (Done st, w') →
  gen_kwargs st = kwargs.
Proof. apply gen_frame_kwargs. Qed.

(** [None] in place of the options makes a later [send] raise. *)
Lemma gen_send_none kwargs options ys xs w :
  gen_send (AtLoopYield kwargs options) (ys, xs, None) w =
  (Raised AttributeError, w).
Proof. reflexivity. Qed.

End generator.

(** C8: the options sent with the first frame's data are lost.  A session is
    started without options; the first message carries the title ["A"], the
    second no options: the second frame is drawn without a title and the
    stored options are empty, where the claim has the title in effect for the
    second frame. *)
Theorem plot_gen_first_options_dropped :
  let data := Flat [Some 1%float; Some 2%float; Some 3%float] in
  let first := (data, None, Some (<["title" := VStr "A"]> ∅)) in
  let second := (data, None, Some ∅) in
  ∃ options w,
    gen_run (H := reference_collaborators) (plot_gen ∅) [first; second]
            (mkWorld [] [])
    = (Done (AtLoopYield ∅ options), w)
    ∧ Options.title options = None.
Proof.
  intros data first second.
  eexists _, _. split; [vm_compute; reflexivity|reflexivity].
Qed.

(** The same title sent with the second message is merged and is in effect
    for the second and the third frame. *)
Example plot_gen_later_options_merged :
  let data := Flat [Some 1%float; Some 2%float; Some 3%float] in
  let titled := (data, None, Some (<["title" := VStr "A"]> ∅)) in
  let plain := (data, None, Some ∅) in
  ∃ options w,
    gen_run (H := reference_collaborators) (plot_gen ∅)
            [plain; titled; plain] (mkWorld [] [])
    = (Done (AtLoopYield (<["title" := VStr "A"]> ∅) options), w)
    ∧ Options.title options = Some "A".
Proof.
  intros data titled plain.
  eexists _, _. split; [vm_compute; reflexivity|reflexivity].
Qed.

(** ** The view: reset after any navigation *)

Section view.
Context `{Collaborators}.

Import param_initializer sections.

Lemma try_set_bounds_initial o xlo xhi ylo yhi :
  Options.initial_bounds (Options.try_set_bounds o xlo xhi ylo yhi) =
  Options.initial_bounds o.
Proof. unfold Options.try_set_bounds. by case (_ && _). Qed.

Lemma zoom_initial o factor :
  Options.initial_bounds (Options.zoom o factor) = Options.initial_bounds o.
Proof.
  unfold Options.zoom.
  destruct (Options.zoom_axis factor (Options.x_min o) (Options.x_max o)).
  destruct (Options.zoom_axis factor (Options.y_min o) (Options.y_max o)).
  apply try_set_bounds_initial.
Qed.

(** No action touches the bounds captured at construction. *)
Lemma perform_initial_bounds a o :
  Options.initial_bounds (perform a o).1 = Options.initial_bounds o.
Proof.
  destruct a; cbn [perform fst]; try done;
    try apply try_set_bounds_initial; try apply zoom_initial.
  unfold Options.reset_view.
  by destruct (Options.initial_bounds o) as [[[? ?] ?] ?] eqn:Hb.
Qed.

Lemma perform_all_initial_bounds actions :
  ∀ o, Options.initial_bounds
         (fold_left (λ o a, (perform a o).1) actions o) =
       Options.initial_bounds o.
Proof.
  induction actions as [|a actions IH]; intros o; [done|].
  cbn [fold_left]. by rewrite IH, perform_initial_bounds.
Qed.

Lemma key_step_initial_bounds o key :
  Options.initial_bounds (key_step o key) = Options.initial_bounds o.
Proof.
  unfold key_step.
  rewrite <- (perform_initial_bounds (table_action (lower key)) o).
  by destruct (perform _ o).
Qed.

Lemma options_after_initial_bounds keys :
  ∀ o, Options.initial_bounds (options_after o keys) =
       Options.initial_bounds o.
Proof.
  unfold options_after.
  induction keys as [|key keys IH]; intros o; [done|].
  cbn [fold_left]. by rewrite IH, key_step_initial_bounds.
Qed.

Lemma reset_view_bounds o :
  Options.bounds (Options.reset_view o) = Options.initial_bounds o.
Proof.
  unfold Options.reset_view.
  by destruct (Options.initial_bounds o) as [[[? ?] ?] ?].
Qed.

(** The bounds derived at construction are the ones captured. *)
Lemma validate_captures_bounds series kwargs options :
  validate_and_transform_options series kwargs = Ok options →
  Options.initial_bounds options = Options.bounds options.
Proof.
  unfold validate_and_transform_options, mbind, result_bind.
  destruct (derive_axis _ _ _ _) as [[xlo xhi]|]; [|done].
  destruct (derive_axis _ _ _ _) as [[ylo yhi]|]; [|done].
  by intros [= <-].
Qed.

(** C5: whatever sequence of pans and zooms (of any actions of the
    controller) is applied to a view, a reset after it gives back the
    bounds captured at construction, as the same floats.  So does the key
    [r] after any keys. *)
Theorem reset_restores_constructed_bounds series kwargs options
    (actions : list action) (keys : list string) :
  validate_and_transform_options series kwargs = Ok options →
  Options.bounds
    (Options.reset_view (fold_left (λ o a, (perform a o).1) actions options))
  = Options.bounds options
  ∧ Options.bounds (key_step (options_after options keys) "r")
    = Options.bounds options.
Proof.
  intros Ho. split.
  - rewrite reset_view_bounds, perform_all_initial_bounds.
    by eapply validate_captures_bounds.
  - change (key_step (options_after options keys) "r")
      with (Options.set_interactive
              (Options.reset_view (options_after options keys)) true).
    change (Options.bounds (Options.set_interactive ?o true))
      with (Options.bounds o).
    rewrite reset_view_bounds, options_after_initial_bounds.
    by eapply validate_captures_bounds.
Qed.

End view.

(** ** Construction of the series: shape errors *)

Lemma lengths_agree_false (xss yss : list (list sample)) :
  MultiSeries.lengths_agree xss yss = false ↔
  ∃ i x y, xss !! i = Some x ∧ yss !! i = Some y ∧ length x ≠ length y.
Proof.
  revert yss. induction xss as [|x xss IH]; intros yss.
  - split; [done|]. by intros (i & x & y & ? & _).
  - destruct yss as [|y yss].
    + split; [done|]. by intros (i & x' & y' & _ & ? & _).
    + cbn [MultiSeries.lengths_agree]. rewrite andb_false_iff, IH.
      rewrite Nat.eqb_neq. split.
      * intros [Hne|(i & x' & y' & Hx & Hy & Hne)].
        -- by exists 0%nat, x, y.
        -- by exists (S i), x', y'.
      * intros ([|i] & x' & y' & Hx & Hy & Hne).
        -- left. cbn in Hx, Hy. congruence.
        -- right. by exists i, x', y'.
Qed.

Section construction.
Context `{Collaborators}.

Import param_initializer sections.

Lemma new_shape_mismatch xs ys :
  MultiSeries.new xs ys = Err ShapeMismatch ↔ shape_mismatch xs ys.
Proof.
  unfold shape_mismatch, MultiSeries.new.
  destruct xs as [xa|].
  - destruct (MultiSeries.is_multi xa && MultiSeries.is_multi ys
              && negb (length (MultiSeries.series_list xa)
                       =? length (MultiSeries.series_list ys))%nat)
      eqn:Hcount.
    + split; [intros _|done]. exists xa. split; [done|]. left.
      apply andb_true_iff in Hcount as [Hm Hc].
      apply andb_true_iff in Hm as [? ?].
      apply negb_true_iff, Nat.eqb_neq in Hc. done.
    + destruct (MultiSeries.lengths_agree _ _) eqn:Hlen; cbn [negb].
      * split; [done|]. intros (xa' & [= <-] & [(Hx & Hy & Hc)|Hex]).
        -- rewrite Hx, Hy in Hcount. cbn in Hcount.
           apply negb_false_iff, Nat.eqb_eq in Hcount. done.
        -- apply lengths_agree_false in Hex. congruence.
      * split; [intros _|done]. exists xa. split; [done|]. right.
        by apply lengths_agree_false.
  - split; [done|]. by intros (xa & ? & _).
Qed.

Lemma new_only_shape_mismatch xs ys e :
  MultiSeries.new xs ys = Err e → e = ShapeMismatch.
Proof.
  unfold MultiSeries.new. destruct xs as [xa|]; [|done].
  destruct (_ && _); [by intros [= <-]|].
  destruct (negb _); [by intros [= <-]|done].
Qed.

(** C7: constructing the series fails with [ShapeMismatch] exactly when x
    and y are both multi-series with different series counts or some x
    series and its y series differ in length; it fails in no other way; and
    the failure ends [plot] and [plot_to_string] before anything is
    printed. *)
Theorem shape_mismatch_exactly xs ys kwargs w :
  (MultiSeries.new xs ys = Err ShapeMismatch ↔ shape_mismatch xs ys)
  ∧ (∀ e, MultiSeries.new xs ys = Err e → e = ShapeMismatch)
  ∧ (shape_mismatch xs ys →
       plot ys xs kwargs w = (Raised ShapeMismatch, w)
       ∧ plot_to_string ys xs kwargs w = (Raised ShapeMismatch, w)).
Proof.
  split; [apply new_shape_mismatch|].
  split; [apply new_only_shape_mismatch|].
  intros Hm. apply new_shape_mismatch in Hm.
  unfold plot, plot_to_string.
  split; by erewrite bind_raised by (by apply lift_result_err).
Qed.

End construction.

(** ** Rendering: the grid and the lines of a plot *)

Section rendering.
Context `{Collaborators}.

Import param_initializer sections.

(** Marking keeps the dimensions of the grid. *)
Lemma mark_length o si g rc : length (mark o si g rc) = length g.
Proof. unfold mark. case (_ && _); [apply length_alter|done]. Qed.

Lemma marks_length o si cells :
  ∀ g, length (fold_left (mark o si) cells g) = length g.
Proof.
  induction cells as [|rc cells IH]; intros g; [done|].
  cbn [fold_left]. by rewrite IH, mark_length.
Qed.

Lemma rasterize_from_length o series :
  ∀ si g, length (rasterize_from o si series g) = length g.
Proof.
  induction series as [|s series IH]; intros si g; [done|].
  cbn [rasterize_from]. by rewrite IH, marks_length.
Qed.

(** The grid has [height] rows. *)
Lemma rasterize_length o series :
  length (rasterize o series) = Z.to_nat (Options.height o).
Proof.
  unfold rasterize, empty_grid.
  by rewrite rasterize_from_length, length_replicate.
Qed.

Lemma legend_length o : Z.of_nat (length (legend o)) = legend_lines o.
Proof.
  unfold legend, legend_lines.
  destruct (Options.legend_labels o); [by rewrite length_imap|done].
Qed.

(** The body: the grid rows, the fixed lines around them, the legend. *)
Lemma generate_plot_str_list_length series o with_header :
  0 ≤ Options.height o →
  Z.of_nat (length (_generate_plot_str_list series o with_header)) =
  Options.height o
  + (if with_header then fixed_header_lines else 0)
  + fixed_footer_lines + legend_lines o.
Proof.
  intros Hh. unfold _generate_plot_str_list, generate_body_raw_elements,
    generate_body, generate_header, fixed_header_lines, fixed_footer_lines.
  rewrite !length_app, length_zip_with, !length_map, length_reverse,
    rasterize_length, length_seq.
  rewrite !Nat2Z.inj_add, Nat2Z.inj_min, Z2Nat.id by done.
  rewrite legend_length. destruct with_header; cbn [length]; lia.
Qed.

Lemma nr_lines_to_erase_legend o :
  nr_lines_to_erase o = Options.height o + 4 + legend_lines o.
Proof.
  unfold nr_lines_to_erase, legend_lines.
  destruct (Options.legend_labels o); lia.
Qed.

(** The erase of the loop covers the prompt line and the body. *)
Lemma nr_lines_to_erase_body series o :
  0 ≤ Options.height o →
  nr_lines_to_erase o =
  1 + Z.of_nat (length (_generate_plot_str_list series o false)).
Proof.
  intros Hh. rewrite generate_plot_str_list_length, nr_lines_to_erase_legend
    by done. unfold fixed_footer_lines. lia.
Qed.


Lemma derive_axis_err as_log user_lo user_hi values e :
  derive_axis as_log user_lo user_hi values = Err e →
  e = NoPositiveDataForLogScale ∧ as_log = true ∧ values = [].
Proof.
  unfold derive_axis. destruct values; [|done].
  destruct as_log; [|done]. by intros [= <-].
Qed.


(** [plot_to_string] is its value: the world is neither read nor
    changed. *)
Lemma plot_to_string_run ys xs kwargs w :
  plot_to_string ys xs kwargs w =
  (match MultiSeries.new xs ys with
   | Ok series =>
       match validate_and_transform_options series kwargs with
       | Ok options => Done (_generate_plot_str_list series options true)
       | Err e => Raised e
       end
   | Err e => Raised e
   end, w).
Proof.
  unfold plot_to_string, mbind, IO_bind.
  destruct (MultiSeries.new xs ys) as [series|e]; [|done]. cbn.
  by destruct (validate_and_transform_options series kwargs).
Qed.


End rendering.

(** ** The re-render after every key *)

Section rerender.
Context `{Collaborators}.

Import param_initializer sections.

Lemma try_set_bounds_size o xlo xhi ylo yhi :
  Options.height (Options.try_set_bounds o xlo xhi ylo yhi) = Options.height o
  ∧ Options.legend_labels (Options.try_set_bounds o xlo xhi ylo yhi)
    = Options.legend_labels o.
Proof. unfold Options.try_set_bounds. by case (_ && _). Qed.

Lemma zoom_size o factor :
  Options.height (Options.zoom o factor) = Options.height o
  ∧ Options.legend_labels (Options.zoom o factor) = Options.legend_labels o.
Proof.
  unfold Options.zoom.
  destruct (Options.zoom_axis factor (Options.x_min o) (Options.x_max o)).
  destruct (Options.zoom_axis factor (Options.y_min o) (Options.y_max o)).
  apply try_set_bounds_size.
Qed.

(** No action changes the height of the grid or the legend. *)
Lemma perform_size a o :
  Options.height (perform a o).1 = Options.height o
  ∧ Options.legend_labels (perform a o).1 = Options.legend_labels o.
Proof.
  destruct a; cbn [perform fst]; try done;
    try apply try_set_bounds_size; try apply zoom_size.
  unfold Options.reset_view.
  by destruct (Options.initial_bounds o) as [[[? ?] ?] ?].
Qed.

Lemma key_step_size o key :
  Options.height (key_step o key) = Options.height o
  ∧ Options.legend_labels (key_step o key) = Options.legend_labels o.
Proof.
  unfold key_step.
  destruct (perform_size (table_action (lower key)) o) as [Hh Hl].
  by destruct (perform (table_action (lower key)) o).
Qed.

(** The erase after a key covers the prompt line and the body that was on
    the screen before the key. *)
Lemma erase_previous_region series o key :
  0 ≤ Options.height o →
  nr_lines_to_erase (key_step o key) =
  1 + Z.of_nat (length (_generate_plot_str_list series o false)).
Proof.
  intros Hh. destruct (key_step_size o key) as [Hheight Hlegend].
  rewrite <- (nr_lines_to_erase_body series o Hh).
  unfold nr_lines_to_erase. by rewrite Hheight, Hlegend.
Qed.

Lemma loop_events_redraw series keys :
  ∀ o, 0 ≤ Options.height o →
       loop_events series o keys = redraw_events series o keys.
Proof.
  induction keys as [|key keys IH]; intros o Hh; [done|].
  cbn [loop_events redraw_events].
  rewrite (erase_previous_region series o key Hh), IH; [done|].
  by rewrite (proj1 (key_step_size o key)).
Qed.

(** Every erase of the loop is of [height + 4] lines and one per legend
    label, for the height and the labels the plot started with. *)
Lemma loop_events_erase series keys n :
  ∀ o, EvErase n ∈ loop_events series o keys →
       n = Options.height o + 4 + legend_lines o.
Proof.
  induction keys as [|key keys IH]; intros o Hin; cbn [loop_events] in Hin.
  { by apply elem_of_nil in Hin. }
  destruct (key_step_size o key) as [Hheight Hlegend].
  cbn [app] in Hin.
  apply elem_of_cons in Hin as [Heq|Hin]; [done|].
  apply elem_of_cons in Hin as [Heq|Hin]; [done|].
  apply elem_of_cons in Hin as [Heq|Hin].
  { injection Heq as ->. rewrite nr_lines_to_erase_legend.
    unfold legend_lines. by rewrite Hheight, Hlegend. }
  apply elem_of_cons in Hin as [Heq|Hin]; [done|].
  apply IH in Hin. unfold legend_lines in *.
  by rewrite Hin, Hheight, Hlegend.
Qed.

(** C4: in the interactive loop [Stopped] is terminal, and every transition
    is followed by exactly one re-render before the next key is read.  After
    the first frame the log of [plot] is one block per key read: the prompt,
    the key, one erase and one print.  The erase is the one
    [_erase_previous_lines] issues for the options after the key, of
    [height + 4] lines and one per legend label, and, the height not
    negative, it covers the previous output region, the prompt line and the
    body on the screen; the print is the body, without header, for the
    options after the key.  The keys read end with the first q or
    ESC, after which [plot] returns and every later key stays unread; with
    no such key [plot] ends waiting at the prompt for the next key. *)
Theorem plot_rerenders_once_per_key ys xs kwargs series options lg keys :
  MultiSeries.new xs ys = Ok series →
  validate_and_transform_options series kwargs = Ok options →
  Options.interactive options = true →
  ∃ consumed unread events (stopped : bool),
    plot ys xs kwargs (mkWorld lg keys) =
      ((if stopped then Done tt else Blocked),
       mkWorld (lg ++ EvPrint (_generate_plot_str series options true)
                   :: events
                   ++ (if stopped then [] else [EvPrint prompt]))
               unread)
    ∧ keys = consumed ++ unread
    ∧ rerender_blocks consumed events
    ∧ keys_read events = consumed
    ∧ events = loop_events series options consumed
    ∧ (∀ n, EvErase n ∈ events →
            n = Options.height options + 4 + legend_lines options)
    ∧ (0 ≤ Options.height options →
       events = redraw_events series options consumed)
    ∧ (stopped = true →
         ∃ pre q, consumed = pre ++ [q] ∧ is_quit q = true
                  ∧ Forall (λ k, is_quit k = false) pre)
    ∧ (stopped = false →
         unread = [] ∧ Forall (λ k, is_quit k = false) consumed).
Proof.
  intros Hs Ho Hi.
  exists (read_keys keys).1.1, (read_keys keys).1.2,
         (loop_events series options (read_keys keys).1.1),
         (read_keys keys).2.
  split.
  { rewrite (plot_run _ _ _ _ _ _ _ Hs Ho).
    rewrite interactive_loop_run by (done || (cbn; lia)).
    by rewrite <- app_assoc. }
  split; [apply read_keys_split|].
  split; [apply loop_events_blocks|].
  split; [apply rerender_blocks_keys_read, loop_events_blocks|].
  split; [done|].
  split; [intros n; apply loop_events_erase|].
  split; [by apply loop_events_redraw|].
  split; [apply read_keys_stopped|apply read_keys_waiting].
Qed.

End rerender.

(** ** [plot_to_string] is a function of its arguments *)

Section purity.
Context `{Collaborators}.

Import param_initializer sections.

Lemma rasterize_from_interactive o b series :
  ∀ si g, rasterize_from (Options.set_interactive o b) si series g =
          rasterize_from o si series g.
Proof.
  induction series as [|s series IH]; intros si g; [done|].
  cbn [rasterize_from]. by rewrite IH.
Qed.

(** The lines of a plot do not depend on the [interactive] option. *)
Lemma generate_plot_str_list_interactive series o b with_header :
  _generate_plot_str_list series (Options.set_interactive o b) with_header =
  _generate_plot_str_list series o with_header.
Proof.
  unfold _generate_plot_str_list, generate_body_raw_elements, rasterize.
  by rewrite rasterize_from_interactive.
Qed.

(** The [interactive] option only sets the field of its name. *)
Lemma validate_interactive series kwargs v :
  validate_and_transform_options series (<["interactive" := v]> kwargs) =
  match validate_and_transform_options series kwargs with
  | Ok options => Ok (Options.set_interactive options (truthy v))
  | Err e => Err e
  end.
Proof.
  unfold validate_and_transform_options, kw_bool, kw_float, kw_int, kw_str,
    kw_labels.
  rewrite lookup_insert_eq, !lookup_insert_ne by done.
  unfold mbind, result_bind.
  destruct (derive_axis _ _ _ _) as [[xlo xhi]|]; [|done].
  by destruct (derive_axis _ _ _ _) as [[ylo yhi]|].
Qed.

(** C6: [plot_to_string] is a deterministic function of the series input
    and the options.  It leaves the terminal as it found it (nothing
    printed, nothing erased, no key read), it never waits for a key, its
    result does not depend on the state of the terminal, so that two calls
    with the same arguments return the same lines, and it returns the same
    lines whatever the [interactive] option is. *)
Theorem plot_to_string_pure ys xs kwargs w :
  (plot_to_string ys xs kwargs w).2 = w
  ∧ (plot_to_string ys xs kwargs w).1 ≠ Blocked
  ∧ (∀ w', (plot_to_string ys xs kwargs w').1 =
           (plot_to_string ys xs kwargs w).1)
  ∧ (∀ v w', (plot_to_string ys xs (<["interactive" := v]> kwargs) w').1 =
             (plot_to_string ys xs kwargs w).1).
Proof.
  split; [by rewrite plot_to_string_run|].
  split.
  { rewrite plot_to_string_run. cbn [fst].
    destruct (MultiSeries.new xs ys) as [series|]; [|done].
    by destruct (validate_and_transform_options series kwargs). }
  split; [intros w'; by rewrite !plot_to_string_run|].
  intros v w'. rewrite !plot_to_string_run. cbn [fst].
  destruct (MultiSeries.new xs ys) as [series|]; [|done].
  rewrite validate_interactive.
  destruct (validate_and_transform_options series kwargs); [|done].
  by rewrite generate_plot_str_list_interactive.
Qed.

End purity.

(** ** Invalid points *)



Section invalid_points.
Context `{Collaborators}.

Import param_initializer sections.









(** *** Where the glyphs come from *)






(** *** Which cells hold a glyph *)











(** *** The input without its invalid points *)







(** *** The rows of the grid among the lines *)



End invalid_points.

(** ** [plot] and [plot_to_string] side by side *)

Section plot_and_plot_to_string.
Context `{Collaborators}.

Import param_initializer sections.

(** X1: what [plot] prints first is the text of [plot_to_string]: the lines
    [plot_to_string] returns for the same arguments, joined by newlines, are
    the first print of [plot]; without the [interactive] option that print
    is all [plot] does, and no key is read. *)
Theorem plot_prints_plot_to_string_lines ys xs kwargs series options lg keys :
  MultiSeries.new xs ys = Ok series →
  validate_and_transform_options series kwargs = Ok options →
  ∃ lines out events keys',
    (∀ w, plot_to_string ys xs kwargs w = (Done lines, w))
    ∧ plot ys xs kwargs (mkWorld lg keys) =
        (out, mkWorld (lg ++ EvPrint (String.concat newline lines) :: events)
                      keys')
    ∧ (Options.interactive options = false →
         out = Done tt ∧ events = [] ∧ keys' = keys).
Proof.
  intros Hs Ho.
  exists (_generate_plot_str_list series options true).
  destruct (Options.interactive options) eqn:Hi.
  - exists (if (read_keys keys).2 then Done tt else Blocked),
           (loop_events series options (read_keys keys).1.1
            ++ (if (read_keys keys).2 then [] else [EvPrint prompt])),
           (read_keys keys).1.2.
    split; [intros w; by rewrite plot_to_string_run, Hs, Ho|].
    split; [|done].
    rewrite (plot_run _ _ _ _ _ _ _ Hs Ho).
    rewrite interactive_loop_run by (done || (cbn; lia)).
    by rewrite <- app_assoc.
  - exists (Done tt), [], keys.
    split; [intros w; by rewrite plot_to_string_run, Hs, Ho|].
    split; [|done]. by apply plot_not_interactive.
Qed.

(** X2: [plot] fails exactly when [plot_to_string] fails, with the same
    error; it then has printed nothing and read no key.  Whatever the keys,
    [plot] ends by returning, by raising or by waiting for a key. *)
Theorem plot_fails_as_plot_to_string ys xs kwargs w e :
  ((plot ys xs kwargs w).1 = Raised e ↔
   (plot_to_string ys xs kwargs w).1 = Raised e)
  ∧ ((plot ys xs kwargs w).1 = Raised e → (plot ys xs kwargs w).2 = w)
  ∧ (plot ys xs kwargs w).1 ≠ OutOfFuel.
Proof.
  destruct w as [lg keys]. rewrite plot_to_string_run. cbn [fst].
  destruct (MultiSeries.new xs ys) as [series|e0] eqn:Hs.
  - destruct (validate_and_transform_options series kwargs)
      as [options|e0] eqn:Ho.
    + rewrite (plot_run _ _ _ _ _ _ _ Hs Ho).
      destruct (Options.interactive options) eqn:Hi.
      * rewrite interactive_loop_run by (done || (cbn; lia)). cbn [fst snd].
        by destruct (read_keys keys).2.
      * cbn [interactive_loop]. by rewrite Hi.
    + assert (plot ys xs kwargs (mkWorld lg keys)
              = (Raised e0, mkWorld lg keys)) as ->.
      { unfold plot. erewrite bind_done by (by apply lift_result_ok).
        by erewrite bind_raised by (by apply lift_result_err). }
      cbn [fst snd]. naive_solver.
  - assert (plot ys xs kwargs (mkWorld lg keys)
            = (Raised e0, mkWorld lg keys)) as ->.
    { unfold plot. by erewrite bind_raised by (by apply lift_result_err). }
    cbn [fst snd]. naive_solver.
Qed.

End plot_and_plot_to_string.

(** ** The key handler folds the case of the key *)

Lemma lower_ascii_idempotent (c : ascii) :
  lower_ascii (lower_ascii c) = lower_ascii c.
Proof. by destruct c as [[] [] [] [] [] [] [] []]. Qed.

Lemma map_lower_idempotent (s : string) :
  map_string lower_ascii (map_string lower_ascii s) = map_string lower_ascii s.
Proof.
  induction s as [|c s IH]; [done|]. cbn. by rewrite lower_ascii_idempotent, IH.
Qed.

Lemma lower_ascii_fixes (c d : ascii) :
  (nat_of_ascii d <? 97)%nat || (122 <? nat_of_ascii d)%nat = true →
  lower_ascii c = d → c = d.
Proof.
  destruct c as [[] [] [] [] [] [] [] []]; intros Hd <-;
    vm_compute in Hd; (discriminate || reflexivity).
Qed.

(** Only the Kelvin sign is folded to the Kelvin sign by the ASCII fold. *)
Lemma map_lower_kelvin (s : string) :
  map_string lower_ascii s = kelvin_sign → s = kelvin_sign.
Proof.
  unfold kelvin_sign.
  destruct s as [|a [|b [|c [|d s]]]]; cbn; try done.
  intros [= Ha Hb Hc].
  apply lower_ascii_fixes in Ha; [|done].
  apply lower_ascii_fixes in Hb; [|done].
  apply lower_ascii_fixes in Hc; [|done].
  by subst.
Qed.

Lemma lower_idempotent (s : string) : lower (lower s) = lower s.
Proof.
  unfold lower. destruct (String.eqb s kelvin_sign) eqn:Hk; [done|].
  destruct (String.eqb (map_string lower_ascii s) kelvin_sign) eqn:Hk'.
  - apply String.eqb_eq, map_lower_kelvin in Hk'. subst s.
    by rewrite String.eqb_refl in Hk.
  - apply map_lower_idempotent.
Qed.

Section case_folding.
Context `{Collaborators}.

Import param_initializer sections.

(** X3: the key handler does not tell a key from its lower case: for every
    key, the options it leaves and the flag it returns are those for the
    lower-case key; a capital Q ends the session as q does. *)
Theorem process_action_case_insensitive options key keys lg :
  (_process_action options (mkWorld lg (key :: keys))).1 =
  (_process_action options (mkWorld lg (lower key :: keys))).1
  ∧ is_quit key = is_quit (lower key).
Proof.
  rewrite !process_action_run. unfold is_quit.
  by rewrite lower_idempotent.
Qed.

(** X13: a key that is not in the table, like q and ESC, costs a full erase
    and redraw of the picture as it was: the pass of the loop that reads it
    erases the count of the options before the key and prints the body for
    them again; the bounds stay as they are. *)
Theorem idle_key_redraws_same_body fuel series options key keys lg :
  Options.interactive options = true →
  table_action (lower key) = NoOp ∨ table_action (lower key) = Stop →
  interactive_loop (S fuel) series options (mkWorld lg (key :: keys)) =
    interactive_loop fuel series (key_step options key)
      (mkWorld (lg ++ [EvPrint prompt; EvGetch key;
                       EvErase (nr_lines_to_erase options);
                       EvPrint (_generate_plot_str series options false)])
               keys)
  ∧ Options.bounds (key_step options key) = Options.bounds options.
Proof.
  intros Hi Hkey. rewrite loop_pass by done. cbn [loop_events].
  assert (∃ b, key_step options key = Options.set_interactive options b)
    as [b Hstep].
  { unfold key_step. destruct Hkey as [-> | ->]; by eexists. }
  rewrite Hstep. split; [|done]. rewrite app_nil_r.
  unfold _generate_plot_str.
  by rewrite generate_plot_str_list_interactive.
Qed.

End case_folding.

(** ** Sessions of [plot_gen] *)

Lemma bind_done_inv {A B : Type} (m : IO A) (f : A → IO B) w b w'' :
  (m ≫= f) w = (Done b, w'') →
  ∃ a w', m w = (Done a, w') ∧ f a w' = (Done b, w'').
Proof.
  unfold mbind, IO_bind. destruct (m w) as [[a| | |] w']; try done.
  intros Hf. by exists a, w'.
Qed.

Lemma last_sent_from (key : string) (msgs : list message) :
  ∀ acc,
    fold_left (λ acc msg,
                 match msg.2 with
                 | Some d => match d !! key with
                             | Some v => Some v
                             | None => acc
                             end
                 | None => acc
                 end) msgs acc
    = match last_sent key msgs with
      | Some v => Some v
      | None => acc
      end.
Proof.
  unfold last_sent.
  induction msgs as [|[[ys xs] n_kwargs] msgs IH]; intros acc; [done|].
  cbn [fold_left snd]. destruct n_kwargs as [d|]; [|apply IH].
  destruct (d !! key) as [v|]; [|apply IH].
  rewrite !(IH (Some v)).
  match goal with
  | |- context [fold_left ?f msgs None] => by destruct (fold_left f msgs None)
  end.
Qed.

Section generator_sessions.
Context `{Collaborators}.

Import param_initializer sections.

(** A [send] that succeeds in the loop: the message carried a dict, the data
    and the merged options were accepted, the frame on the screen was erased
    as the message asked and the new frame printed. *)
Lemma gen_send_loop_inv kwargs on_screen ys xs n_kwargs lg keys st w' :
  gen_send (AtLoopYield kwargs on_screen) (ys, xs, n_kwargs) (mkWorld lg keys)
  = (Done st, w') →
  ∃ d series options,
    n_kwargs = Some d
    ∧ MultiSeries.new xs ys = Ok series
    ∧ validate_and_transform_options series (dict_update kwargs d)
      = Ok options
    ∧ st = AtLoopYield (dict_update kwargs d) options
    ∧ w' = mkWorld (lg ++ erase_events d on_screen
                       ++ [EvPrint (_generate_plot_str series options true)])
                   keys.
Proof.
  destruct n_kwargs as [d|]; [|done]. cbn [gen_send].
  assert ((if bool_decide (d = ∅) then kwargs else dict_update kwargs d)
          = dict_update kwargs d) as ->.
  { case_bool_decide as Hd; [|done]. subst d. by rewrite dict_update_empty. }
  intros Hsend. exists d.
  apply bind_done_inv in Hsend as ([] & w1 & Herase & Hframe).
  assert (w1 = mkWorld (lg ++ erase_events d on_screen) keys) as ->.
  { unfold erase_events.
    destruct (truthy (dict_get d "erase" (VBool true))).
    - by injection Herase as <-.
    - injection Herase as <-. by rewrite app_nil_r. }
  unfold gen_frame in Hframe.
  apply bind_done_inv in Hframe as (series & w2 & Hs & Hframe).
  destruct (MultiSeries.new xs ys) as [series'|] eqn:Hnew; [|done].
  injection Hs as -> <-.
  apply bind_done_inv in Hframe as (options & w3 & Ho & Hframe).
  destruct (validate_and_transform_options series (dict_update kwargs d))
    as [options'|] eqn:Hval; [|done].
  injection Ho as -> <-.
  exists series, options. split; [done|]. split; [done|]. split; [done|].
  cbn in Hframe. injection Hframe as <- <-.
  split; [done|]. by rewrite <- app_assoc.
Qed.

(** X12: the first [send] of a session prints, with no erase before it, the
    frame of its data under the options [plot_gen] was called with, the lines
    [plot_to_string] returns for them joined by newlines; it reads no key,
    and it stores those options as they are, whatever the message carries
    as options. *)
Theorem gen_first_send_prints_frame kwargs ys xs n_kwargs lines lg keys w0 w1 :
  plot_to_string ys xs kwargs w0 = (Done lines, w1) →
  ∃ options,
    gen_send (plot_gen kwargs) (ys, xs, n_kwargs) (mkWorld lg keys)
    = (Done (AtLoopYield kwargs options),
       mkWorld (lg ++ [EvPrint (String.concat newline lines)]) keys).
Proof.
  rewrite plot_to_string_run. intros Hrun.
  destruct (MultiSeries.new xs ys) as [series|] eqn:Hs; [|done].
  destruct (validate_and_transform_options series kwargs)
    as [options|] eqn:Ho; [|done].
  injection Hrun as <- _. exists options.
  cbn [gen_send plot_gen]. unfold gen_frame.
  erewrite bind_done by (by apply lift_result_ok).
  by erewrite bind_done by (by apply lift_result_ok).
Qed.

(** X4: in a session of [plot_gen], from the second message on, the options
    pile up: after the messages were taken in, the stored value of an option
    is the one sent last for it, and the value stored before where no
    message sent one. *)
Theorem gen_session_last_sent_wins kwargs on_screen msgs w st w' key :
  gen_run (AtLoopYield kwargs on_screen) msgs w = (Done st, w') →
  gen_kwargs st !! key =
  match last_sent key msgs with
  | Some v => Some v
  | None => kwargs !! key
  end.
Proof.
  revert kwargs on_screen w.
  induction msgs as [|[[ys xs] n_kwargs] msgs IH]; intros kwargs on_screen w.
  - by intros [= <- _].
  - cbn [gen_run]. intros Hrun.
    apply bind_done_inv in Hrun as (st1 & w1 & Hsend & Hrun).
    destruct w as [lg keys].
    apply gen_send_loop_inv in Hsend
      as (d & series & options & -> & _ & _ & -> & _).
    rewrite (IH _ _ _ Hrun). unfold last_sent at 2. cbn [fold_left snd].
    rewrite last_sent_from, dict_update_lookup.
    destruct (last_sent key msgs); [done|]. by destruct (d !! key).
Qed.

(** X5: the log of a session of [plot_gen] from the second message on.  Each
    message makes the generator erase the frame on the screen (the count is
    the one of that frame's options) unless the message itself carries a
    false [erase], and then print, with its header, the frame of the new
    data under the stored options with the message's options merged in; no
    key is read. *)
Theorem gen_session_log kwargs on_screen msgs lg keys st w' :
  gen_run (AtLoopYield kwargs on_screen) msgs (mkWorld lg keys)
  = (Done st, w') →
  ∃ events,
    w' = mkWorld (lg ++ events) keys
    ∧ session_log kwargs on_screen msgs events (gen_kwargs st).
Proof.
  revert kwargs on_screen lg.
  induction msgs as [|[[ys xs] n_kwargs] msgs IH]; intros kwargs on_screen lg.
  - intros [= <- <-]. exists []. split; [by rewrite app_nil_r|constructor].
  - cbn [gen_run]. intros Hrun.
    apply bind_done_inv in Hrun as (st1 & w1 & Hsend & Hrun).
    apply gen_send_loop_inv in Hsend
      as (d & series & options & -> & Hs & Ho & -> & ->).
    apply IH in Hrun as (events & -> & Hlog).
    eexists. split; [|by econstructor].
    by rewrite <- !app_assoc.
Qed.

(** X6: when the data or the merged options of a later message are refused,
    the [send] raises the error [plot_to_string] raises for them, and it
    does so after the erase: the old frame is gone and nothing is printed
    in its place. *)
Theorem gen_send_fails_after_erase kwargs on_screen ys xs d lg keys e w0 :
  (plot_to_string ys xs (dict_update kwargs d) w0).1 = Raised e →
  gen_send (AtLoopYield kwargs on_screen) (ys, xs, Some d) (mkWorld lg keys)
  = (Raised e, mkWorld (lg ++ erase_events d on_screen) keys).
Proof.
  rewrite plot_to_string_run. cbn [fst gen_send]. intros Hraise.
  assert ((if bool_decide (d = ∅) then kwargs else dict_update kwargs d)
          = dict_update kwargs d) as ->.
  { case_bool_decide as Hd; [|done]. subst d. by rewrite dict_update_empty. }
  assert (gen_frame (dict_update kwargs d) ys xs
            (mkWorld (lg ++ erase_events d on_screen) keys)
          = (Raised e, mkWorld (lg ++ erase_events d on_screen) keys))
    as Hframe.
  { unfold gen_frame.
    destruct (MultiSeries.new xs ys) as [series|e0] eqn:Hs.
    - erewrite bind_done by (by apply lift_result_ok).
      destruct (validate_and_transform_options series (dict_update kwargs d))
        as [options|e1] eqn:Ho; [done|].
      injection Hraise as ->.
      by erewrite bind_raised by (by apply lift_result_err).
    - injection Hraise as ->.
      by erewrite bind_raised by (by apply lift_result_err). }
  unfold erase_events in *.
  destruct (truthy (dict_get d "erase" (VBool true))).
  - erewrite bind_done by reflexivity. exact Hframe.
  - erewrite bind_done by reflexivity. rewrite app_nil_r in Hframe.
    by rewrite app_nil_r.
Qed.

Lemma gen_frame_keeps_keys kwargs ys xs w :
  pending_keys (gen_frame kwargs ys xs w).2 = pending_keys w
  ∧ (gen_frame kwargs ys xs w).1 ≠ Blocked
  ∧ (gen_frame kwargs ys xs w).1 ≠ OutOfFuel
  ∧ ∃ events, log (gen_frame kwargs ys xs w).2 = log w ++ events.
Proof.
  unfold gen_frame, mbind, IO_bind.
  destruct (MultiSeries.new xs ys) as [series|]; cbn;
    [|repeat split; try done; exists []; by rewrite app_nil_r].
  destruct (validate_and_transform_options series kwargs); cbn;
    [|repeat split; try done; exists []; by rewrite app_nil_r].
  repeat split; try done. by eexists.
Qed.

Lemma gen_send_keeps_keys st msg w :
  pending_keys (gen_send st msg w).2 = pending_keys w
  ∧ (gen_send st msg w).1 ≠ Blocked
  ∧ (gen_send st msg w).1 ≠ OutOfFuel
  ∧ ∃ events, log (gen_send st msg w).2 = log w ++ events.
Proof.
  destruct msg as [[ys xs] n_kwargs].
  destruct st as [kwargs|kwargs on_screen]; cbn [gen_send];
    [apply gen_frame_keeps_keys|].
  destruct n_kwargs as [d|];
    [|repeat split; try done; exists []; by rewrite app_nil_r].
  set (kwargs' := if bool_decide (d = ∅) then kwargs else _).
  destruct (truthy (dict_get d "erase" (VBool true))).
  - erewrite bind_done by reflexivity.
    destruct (gen_frame_keeps_keys kwargs' ys xs
                (mkWorld (log w ++ [EvErase (nr_lines_to_erase on_screen)])
                         (pending_keys w)))
      as (Hk & Hb & Hf & events & Hl).
    repeat split; try done. cbn in Hl. rewrite <- app_assoc in Hl.
    by eexists.
  - erewrite bind_done by reflexivity. apply gen_frame_keeps_keys.
Qed.

(** X7: a session of [plot_gen] never touches the keyboard: whatever the
    options, [interactive] among them, and however it ends, no key is read,
    no [send] waits for one, and the log only grows. *)
Theorem gen_run_reads_no_key st msgs w :
  pending_keys (gen_run st msgs w).2 = pending_keys w
  ∧ (gen_run st msgs w).1 ≠ Blocked
  ∧ (gen_run st msgs w).1 ≠ OutOfFuel
  ∧ ∃ events, log (gen_run st msgs w).2 = log w ++ events.
Proof.
  revert st w. induction msgs as [|msg msgs IH]; intros st w.
  - cbn. repeat split; try done. exists []. by rewrite app_nil_r.
  - cbn [gen_run]. unfold mbind, IO_bind.
    destruct (gen_send_keeps_keys st msg w) as (Hk & Hb & Hf & events & Hl).
    destruct (gen_send st msg w) as [[st1| | |] w1]; cbn in *; try done.
    + destruct (IH st1 w1) as (Hk' & Hb' & Hf' & events' & Hl').
      repeat split; try done; [congruence|].
      exists (events ++ events'). by rewrite Hl', Hl, app_assoc.
    + repeat split; try done. by exists events.
Qed.

End generator_sessions.

(** ** Floats in [histogram] *)

Lemma SFcompare_refl (x : spec_float) :
  x ≠ S754_nan → SFcompare x x = Some Eq.
Proof.
  destruct x as [s|s| |s m e]; intros Hx; try done.
  - by destruct s.
  - cbn. rewrite Z.compare_refl, Pos.compare_cont_refl. by destruct s.
Qed.

Lemma is_nan_SF (x : float) : is_nan x = true ↔ Prim2SF x = S754_nan.
Proof.
  unfold is_nan. rewrite FloatAxioms.eqb_spec. unfold SFeqb. split.
  - intros Hx. destruct (Prim2SF x) eqn:Hsf; try done;
      by rewrite SFcompare_refl in Hx.
  - by intros ->.
Qed.

(** A comparison with a NaN on either side is false. *)
Lemma ltb_nan (a b : float) :
  is_nan a || is_nan b = true → (a <? b)%float = false.
Proof.
  rewrite FloatAxioms.ltb_spec. unfold SFltb. intros Hnan.
  apply orb_true_iff in Hnan as [Ha|Hb].
  - apply is_nan_SF in Ha. by rewrite Ha.
  - apply is_nan_SF in Hb. rewrite Hb. by destruct (Prim2SF a).
Qed.

Lemma is_finite_SF (x : float) :
  is_finite x = true →
  match Prim2SF x with
  | S754_zero _ | S754_finite _ _ _ => True
  | S754_infinity _ | S754_nan => False
  end.
Proof.
  unfold is_finite. intros Hx. apply negb_true_iff, orb_false_iff in Hx
    as [Hnan Hinf].
  destruct (Prim2SF x) eqn:Hsf; try done.
  - unfold is_infinity in Hinf.
    rewrite FloatAxioms.eqb_spec, FloatAxioms.abs_spec, Hsf in Hinf.
    by vm_compute in Hinf.
  - apply is_nan_SF in Hsf. congruence.
Qed.

(** When a difference is finite, what is taken away is finite. *)
Lemma sub_finite_r (a b : float) :
  is_finite (a - b) = true →
  match Prim2SF b with
  | S754_zero _ | S754_finite _ _ _ => True
  | S754_infinity _ | S754_nan => False
  end.
Proof.
  intros Hd. apply is_finite_SF in Hd.
  rewrite FloatAxioms.sub_spec in Hd. unfold SF64sub, SFsub in Hd.
  destruct (Prim2SF b) as [sb|sb| |sb mb eb]; try done.
  - by destruct (Prim2SF a) as [sa|sa| |sa ma ea]; try destruct sa, sb.
  - by destruct (Prim2SF a).
Qed.

(** The first term of an arithmetic progression of floats: adding zero
    times a finite step, divided by a positive float, gives the start. *)
Lemma add_zero_steps (lo d b : float) :
  is_finite d = true →
  match Prim2SF lo with
  | S754_zero _ | S754_finite _ _ _ => True
  | S754_infinity _ | S754_nan => False
  end →
  (0 <? b)%float = true →
  (lo + PyFloat.of_Z 0 * d / b =? lo)%float = true.
Proof.
  intros Hd Hlo Hb.
  apply is_finite_SF in Hd.
  rewrite FloatAxioms.ltb_spec in Hb.
  rewrite FloatAxioms.eqb_spec, FloatAxioms.add_spec, FloatAxioms.div_spec,
    FloatAxioms.mul_spec.
  change (Prim2SF (PyFloat.of_Z 0)) with (S754_zero false).
  change (Prim2SF 0) with (S754_zero false) in Hb.
  unfold SF64add, SF64div, SF64mul, SFadd, SFdiv, SFmul, SFeqb.
  unfold SFltb in Hb.
  destruct (Prim2SF d) as [sd|sd| |sd md ed]; try done;
    destruct (Prim2SF b) as [sb|sb| |sb mb eb]; try done;
    destruct (Prim2SF lo) as [sl|sl| |sl ml el] eqn:Hsf; try done;
    try (by destruct sl, sd, sb);
    by rewrite SFcompare_refl.
Qed.

Section histogram_edges.
Context `{Collaborators}.

Import param_initializer sections.

(** X8: [histogram] does not check [bins]: with a negative number of bins
    the assertion on the range passing, it computes no edge at all and goes
    on to plot the bar charts over no edges; it raises nothing of its
    own. *)
Theorem histogram_negative_bins xs bins bins_min bins_max kwargs
    multi_series w :
  MultiSeries.new None xs = Ok multi_series →
  PyFloat.gt (default (MultiSeries.y_max multi_series) bins_max)
             (default (MultiSeries.y_min multi_series) bins_min) = true →
  bins < 0 →
  histogram_bin_edges multi_series bins bins_min bins_max = Ok []
  ∧ histogram xs bins bins_min bins_max kwargs w =
      let charts := map (λ s, compute_bar_chart_histogram_points s [])
                        (MultiSeries.ys multi_series) in
      plot (Nested (map snd charts)) (Some (Nested (map fst charts)))
           (<["lines" := dict_get kwargs "lines" (VBool true)]> kwargs) w.
Proof.
  intros Hs Hgt Hbins.
  assert (histogram_bin_edges multi_series bins bins_min bins_max = Ok [])
    as He.
  { unfold histogram_bin_edges, range. rewrite Hgt. cbn [negb].
    by rewrite seqZ_nil by lia. }
  split; [done|]. unfold histogram.
  erewrite bind_done by (by apply lift_result_ok).
  by erewrite bind_done by (by apply lift_result_ok).
Qed.

(** X9: with no bins, and both limits given as floats in their order,
    the division by [bins] raises [ZeroDivisionError]; nothing is
    printed. *)
Theorem histogram_zero_bins xs lo hi kwargs multi_series w :
  MultiSeries.new None xs = Ok multi_series →
  PyFloat.gt hi lo = true →
  histogram xs 0 (Some lo) (Some hi) kwargs w = (Raised ZeroDivisionError, w).
Proof.
  intros Hs Hgt. unfold histogram.
  erewrite bind_done by (by apply lift_result_ok).
  erewrite bind_raised; [done|]. apply lift_result_err.
  unfold histogram_bin_edges. cbn [from_option id]. by rewrite Hgt.
Qed.

(** X10: a NaN among the two limits that are compared (given, or taken from
    the data) fails the assertion of [histogram], as every comparison with a
    NaN is false; nothing is printed. *)
Theorem histogram_nan_limit xs bins bins_min bins_max kwargs multi_series w :
  MultiSeries.new None xs = Ok multi_series →
  is_nan (default (MultiSeries.y_min multi_series) bins_min)
  || is_nan (default (MultiSeries.y_max multi_series) bins_max) = true →
  histogram xs bins bins_min bins_max kwargs w = (Raised AssertionError, w).
Proof.
  intros Hs Hnan. eapply histogram_assertion; [done|].
  unfold PyFloat.gt. by apply ltb_nan.
Qed.

(** X11: the edges start at the lower limit.  When the assertion holds, the
    span between the limits in use is finite and [bins] is positive and
    converts to a positive float, the first edge equals, as a float, the
    lower limit in use: the given [bins_min], or the data minimum moved out
    by a tenth of the span. *)
Theorem histogram_first_edge multi_series bins bins_min bins_max :
  let lo := default (MultiSeries.y_min multi_series) bins_min in
  let hi := default (MultiSeries.y_max multi_series) bins_max in
  let delta := (hi - lo)%float in
  let lo' := match bins_min with
             | None => (lo - 0.1 * delta)%float
             | Some _ => lo
             end in
  let hi' := match bins_max with
             | None => (hi + 0.1 * delta)%float
             | Some _ => hi
             end in
  PyFloat.gt hi lo = true →
  0 < bins →
  (0 <? PyFloat.of_Z bins)%float = true →
  is_infinity (PyFloat.of_Z bins) = false →
  is_finite (hi' - lo') = true →
  ∃ first rest,
    histogram_bin_edges multi_series bins bins_min bins_max
    = Ok (first :: rest)
    ∧ (first =? lo')%float = true.
Proof.
  intros lo hi delta lo' hi' Hgt Hbins Hpos Hfin Hspan.
  unfold histogram_bin_edges. cbv zeta. fold lo hi. rewrite Hgt. cbn [negb].
  fold delta. fold lo' hi'. unfold range.
  rewrite seqZ_cons by lia. rewrite Hfin.
  destruct (bins =? 0) eqn:Hz; [lia|].
  cbn [map]. eexists _, _. split; [done|].
  apply add_zero_steps; [done| |done].
  by apply (sub_finite_r hi' lo').
Qed.

End histogram_edges.

(** ** The statements at concrete inputs *)

Import param_initializer sections.

#[local] Existing Instance reference_collaborators.



(** The plot of the example has 6 rows, 2 header lines, 3 fixed lines and one
    legend line. *)
Example example_line_count :
  ∃ lines,
    plot_to_string example_ys None example_kwargs (mkWorld [] [])
    = (Done lines, mkWorld [] [])
    ∧ length lines = 12%nat.
Proof. eexists. split; [vm_compute; reflexivity|reflexivity]. Qed.


(** The plot of the test: three glyphs on the diagonal, for 1, 12.2 and
    20.09; the header and the x axis labels of the reference collaborators
    are empty. *)
Example mixed_values_plot :
  plot_to_string mixed_values (Some mixed_values) log_kwargs (mkWorld [] [])
  = (Done [""; "";
           "┌────────────────────┐";
           "│                   █│ ";
           "│                █   │ ";
           "│                    │ ";
           "│                    │ ";
           "│                    │ ";
           "│█                   │ ";
           "└────────────────────┘";
           ""],
     mkWorld [] []).
Proof. vm_compute. reflexivity. Qed.

(** Of the seven values of the test, the three valid ones are drawn. *)
Example mixed_values_valid_points :
  MultiSeries.valid_points true true mixed_series =
  [(1, 1); (20.09, 20.09); (12.2, 12.2)]%float.
Proof. reflexivity. Qed.

Lemma plot_rerenders_once_per_key_witness :
  MultiSeries.new None example_ys = Ok example_series
  ∧ validate_and_transform_options example_series example_kwargs
    = Ok example_options
  ∧ Options.interactive example_options = true
  ∧ ∃ consumed unread events (stopped : bool),
      plot example_ys None example_kwargs (mkWorld [] ["h"; "x"; "Q"; "l"]) =
        ((if stopped then Done tt else Blocked),
         mkWorld ([] ++ EvPrint (_generate_plot_str example_series
                                                    example_options true)
                     :: events
                     ++ (if stopped then [] else [EvPrint prompt]))
                 unread)
      ∧ ["h"; "x"; "Q"; "l"] = consumed ++ unread
      ∧ rerender_blocks consumed events
      ∧ keys_read events = consumed
      ∧ events = loop_events example_series example_options consumed
      ∧ (∀ n, EvErase n ∈ events →
              n = Options.height example_options + 4
                  + legend_lines example_options)
      ∧ (0 ≤ Options.height example_options →
         events = redraw_events example_series example_options consumed)
      ∧ (stopped = true →
           ∃ pre q, consumed = pre ++ [q] ∧ is_quit q = true
                    ∧ Forall (λ k, is_quit k = false) pre)
      ∧ (stopped = false →
           unread = [] ∧ Forall (λ k, is_quit k = false) consumed).
Proof.
  assert (MultiSeries.new None example_ys = Ok example_series) as Hs
    by reflexivity.
  assert (validate_and_transform_options example_series example_kwargs
          = Ok example_options) as Ho by (vm_compute; reflexivity).
  assert (Options.interactive example_options = true) as Hi by reflexivity.
  split; [exact Hs|]. split; [exact Ho|]. split; [exact Hi|].
  exact (plot_rerenders_once_per_key example_ys None example_kwargs
           example_series example_options [] ["h"; "x"; "Q"; "l"] Hs Ho Hi).
Defined.

(** The session of the example: three keys are read, the fourth is not. *)
Example example_session :
  ∃ lg,
    plot example_ys None example_kwargs (mkWorld [] ["h"; "x"; "Q"; "l"])
    = (Done tt, mkWorld lg ["l"])
    ∧ keys_read lg = ["h"; "x"; "Q"]
    ∧ length lg = 13%nat.
Proof. eexists. split; [vm_compute; reflexivity|by vm_compute]. Qed.

(** The events of the session of the example after the first frame: every
    key is followed by the erase of 11 lines, the prompt line and the 10
    lines of the body, and by the print of the body. *)
Example example_session_events :
  ∃ frame_h frame_x frame_q,
    plot example_ys None example_kwargs (mkWorld [] ["h"; "x"; "Q"; "l"])
    = (Done tt,
       mkWorld [EvPrint (_generate_plot_str example_series example_options
                                            true);
                EvPrint prompt; EvGetch "h"; EvErase 11; EvPrint frame_h;
                EvPrint prompt; EvGetch "x"; EvErase 11; EvPrint frame_x;
                EvPrint prompt; EvGetch "Q"; EvErase 11; EvPrint frame_q]
               ["l"])
    ∧ frame_h = _generate_plot_str example_series
                  (key_step example_options "h") false
    ∧ frame_x = frame_h
    ∧ frame_q = _generate_plot_str example_series
                  (Options.set_interactive (key_step example_options "h")
                                           false) false
    ∧ frame_h ≠ _generate_plot_str example_series example_options false
    ∧ length (_generate_plot_str_list example_series example_options false)
      = 10%nat.
Proof.
  eexists _, _, _. split; [vm_compute; reflexivity|]. by vm_compute.
Qed.

Lemma plot_final_redraw_witness :
  MultiSeries.new None example_ys = Ok example_series
  ∧ validate_and_transform_options example_series example_kwargs
    = Ok example_options
  ∧ Options.interactive example_options = true
  ∧ Forall (λ k, is_quit k = false) ["h"; "x"]
  ∧ is_quit "Q" = true
  ∧ ∃ events final,
      plot example_ys None example_kwargs
           (mkWorld [] (["h"; "x"] ++ "Q" :: ["l"])) =
        (Done tt,
         mkWorld ([] ++ EvPrint (_generate_plot_str example_series
                                                    example_options true)
                     :: events
                     ++ [EvPrint prompt; EvGetch "Q";
                         EvErase (nr_lines_to_erase final);
                         EvPrint (_generate_plot_str example_series final
                                                     false)])
                 ["l"])
      ∧ keys_read events = ["h"; "x"]
      ∧ final = options_after example_options (["h"; "x"] ++ ["Q"])
      ∧ Options.interactive final = false
      ∧ _generate_plot_str_list example_series final true =
          generate_header final
          ++ _generate_plot_str_list example_series final false.
Proof.
  assert (MultiSeries.new None example_ys = Ok example_series) as Hs
    by reflexivity.
  assert (validate_and_transform_options example_series example_kwargs
          = Ok example_options) as Ho by (vm_compute; reflexivity).
  assert (Options.interactive example_options = true) as Hi by reflexivity.
  assert (Forall (λ k, is_quit k = false) ["h"; "x"]) as Hpre
    by (repeat constructor).
  assert (is_quit "Q" = true) as Hq by reflexivity.
  split; [exact Hs|]. split; [exact Ho|]. split; [exact Hi|].
  split; [exact Hpre|]. split; [exact Hq|].
  exact (plot_final_redraw example_ys None example_kwargs example_series
           example_options [] ["h"; "x"] "Q" ["l"] Hs Ho Hi Hpre Hq).
Defined.

Lemma reset_restores_constructed_bounds_witness :
  validate_and_transform_options example_series example_kwargs
  = Ok example_options
  ∧ Options.bounds
      (Options.reset_view
         (fold_left (λ o a, (perform a o).1)
                    [PanLeft; ZoomIn; PanUp; ZoomOut; PanRight; PanDown]
                    example_options))
    = Options.bounds example_options
  ∧ Options.bounds (key_step (options_after example_options ["h"; "u"; "K"])
                             "r")
    = Options.bounds example_options.
Proof.
  assert (validate_and_transform_options example_series example_kwargs
          = Ok example_options) as Ho by (vm_compute; reflexivity).
  split; [exact Ho|].
  exact (reset_restores_constructed_bounds example_series example_kwargs
           example_options
           [PanLeft; ZoomIn; PanUp; ZoomOut; PanRight; PanDown]
           ["h"; "u"; "K"] Ho).
Defined.

(** The navigation of the example does move the view before the reset. *)
Example example_navigation_moves :
  Options.bounds (options_after example_options ["h"; "u"; "K"])
  ≠ Options.bounds example_options.
Proof. by vm_compute. Qed.

Lemma shape_mismatch_exactly_witness :
  shape_mismatch short_xs long_ys
  ∧ MultiSeries.new short_xs long_ys = Err ShapeMismatch
  ∧ plot long_ys short_xs example_kwargs (mkWorld [] ["q"])
    = (Raised ShapeMismatch, mkWorld [] ["q"])
  ∧ plot_to_string long_ys short_xs example_kwargs (mkWorld [] ["q"])
    = (Raised ShapeMismatch, mkWorld [] ["q"]).
Proof.
  assert (shape_mismatch short_xs long_ys) as Hm.
  { exists (Flat [Some 1%float; Some 2%float]). split; [reflexivity|].
    right. exists 0%nat, [Some 1%float; Some 2%float],
                  [Some 1%float; Some 2%float; Some 3%float].
    split; [reflexivity|]. split; [reflexivity|]. cbn. lia. }
  destruct (shape_mismatch_exactly short_xs long_ys example_kwargs
              (mkWorld [] ["q"])) as (Hiff & _ & Hraise).
  split; [exact Hm|]. split; [exact (proj2 Hiff Hm)|exact (Hraise Hm)].
Defined.

(** Ragged series without [xs], and nested [ys] against one flat [xs], are
    not shape errors. *)
Example ragged_series_accepted :
  ∃ series,
    MultiSeries.new None (Nested [[Some 1%float; Some 2%float];
                                  [Some 5%float]])
    = Ok series
    ∧ MultiSeries.xs series = [[Some 0%float; Some 1%float]; [Some 0%float]].
Proof. eexists. split; reflexivity. Qed.


(** The edges of three bins over the data [1, 2, 4]: the limits moved out by
    a tenth of the span 3. *)
Example spread_bin_edges :
  histogram_bin_edges spread_series 3 None None
  = Ok [0.7; 1.9; 3.0999999999999996; 4.3]%float.
Proof. reflexivity. Qed.


Lemma plot_prints_plot_to_string_lines_witness :
  MultiSeries.new None example_ys = Ok example_series
  ∧ validate_and_transform_options example_series example_kwargs
    = Ok example_options
  ∧ ∃ lines out events keys',
      (∀ w, plot_to_string example_ys None example_kwargs w
            = (Done lines, w))
      ∧ plot example_ys None example_kwargs (mkWorld [] ["h"; "q"; "l"]) =
          (out,
           mkWorld ([] ++ EvPrint (String.concat newline lines) :: events)
                   keys')
      ∧ (Options.interactive example_options = false →
           out = Done tt ∧ events = [] ∧ keys' = ["h"; "q"; "l"]).
Proof.
  assert (MultiSeries.new None example_ys = Ok example_series) as Hs
    by reflexivity.
  assert (validate_and_transform_options example_series example_kwargs
          = Ok example_options) as Ho by (vm_compute; reflexivity).
  split; [exact Hs|]. split; [exact Ho|].
  exact (plot_prints_plot_to_string_lines example_ys None example_kwargs
           example_series example_options [] ["h"; "q"; "l"] Hs Ho).
Defined.

Lemma gen_session_last_sent_wins_witness :
  gen_run (AtLoopYield ∅ example_options) sample_messages (mkWorld [] [])
  = (Done sample_session_state, sample_session_world)
  ∧ gen_kwargs sample_session_state !! "height" =
    match last_sent "height" sample_messages with
    | Some v => Some v
    | None => (∅ : kwargs_t) !! "height"
    end.
Proof.
  assert (gen_run (AtLoopYield ∅ example_options) sample_messages
                  (mkWorld [] [])
          = (Done sample_session_state, sample_session_world)) as Hrun
    by (vm_compute; reflexivity).
  split; [exact Hrun|].
  exact (gen_session_last_sent_wins ∅ example_options sample_messages
           (mkWorld [] []) sample_session_state sample_session_world
           "height" Hrun).
Defined.

(** At the end of the example the title and the height sent are stored, and
    so is the [erase] that came with the height. *)
Example sample_session_kwargs :
  gen_kwargs sample_session_state
  = <["title" := VStr "A"]>
      (<["erase" := VBool false]> (<["height" := VInt 8]> ∅)).
Proof. by vm_compute. Qed.

Lemma gen_session_log_witness :
  gen_run (AtLoopYield ∅ example_options) sample_messages (mkWorld [] [])
  = (Done sample_session_state, sample_session_world)
  ∧ ∃ events,
      sample_session_world = mkWorld ([] ++ events) []
      ∧ session_log ∅ example_options sample_messages events
                    (gen_kwargs sample_session_state).
Proof.
  assert (gen_run (AtLoopYield ∅ example_options) sample_messages
                  (mkWorld [] [])
          = (Done sample_session_state, sample_session_world)) as Hrun
    by (vm_compute; reflexivity).
  split; [exact Hrun|].
  exact (gen_session_log ∅ example_options sample_messages [] []
           sample_session_state sample_session_world Hrun).
Defined.

(** The log of the example: the first and the third message erase the frame
    before them, of 6 rows with one legend line and of 8 rows; the second
    does not erase. *)
Example sample_session_erases :
  omap (λ e, match e with EvErase n => Some n | _ => None end)
       (log sample_session_world)
  = [11; 12].
Proof. reflexivity. Qed.

Lemma gen_send_fails_after_erase_witness :
  (plot_to_string long_ys short_xs (dict_update ∅ ∅) (mkWorld [] [])).1
  = Raised ShapeMismatch
  ∧ gen_send (AtLoopYield ∅ example_options) (long_ys, short_xs, Some ∅)
             (mkWorld [] ["q"])
    = (Raised ShapeMismatch,
       mkWorld ([] ++ erase_events ∅ example_options) ["q"]).
Proof.
  assert ((plot_to_string long_ys short_xs (dict_update ∅ ∅)
                          (mkWorld [] [])).1
          = Raised ShapeMismatch) as Hraise by reflexivity.
  split; [exact Hraise|].
  exact (gen_send_fails_after_erase ∅ example_options long_ys short_xs ∅
           [] ["q"] ShapeMismatch (mkWorld [] []) Hraise).
Defined.

Lemma gen_first_send_prints_frame_witness :
  plot_to_string example_ys None example_kwargs (mkWorld [] [])
  = (Done (_generate_plot_str_list example_series example_options true),
     mkWorld [] [])
  ∧ ∃ options,
      gen_send (plot_gen example_kwargs) (example_ys, None, None)
               (mkWorld [] ["q"])
      = (Done (AtLoopYield example_kwargs options),
         mkWorld ([] ++ [EvPrint (String.concat newline
                                    (_generate_plot_str_list
                                       example_series example_options
                                       true))])
                 ["q"]).
Proof.
  assert (plot_to_string example_ys None example_kwargs (mkWorld [] [])
          = (Done (_generate_plot_str_list example_series example_options
                                           true),
             mkWorld [] [])) as Hrun by (vm_compute; reflexivity).
  split; [exact Hrun|].
  exact (gen_first_send_prints_frame example_kwargs example_ys None None
           (_generate_plot_str_list example_series example_options true)
           [] ["q"] (mkWorld [] []) (mkWorld [] []) Hrun).
Defined.

Lemma histogram_negative_bins_witness :
  MultiSeries.new None spread_values = Ok spread_series
  ∧ PyFloat.gt (default (MultiSeries.y_max spread_series) None)
               (default (MultiSeries.y_min spread_series) None) = true
  ∧ -3 < 0
  ∧ histogram_bin_edges spread_series (-3) None None = Ok []
  ∧ histogram spread_values (-3) None None ∅ (mkWorld [] []) =
      (let charts := map (λ s, compute_bar_chart_histogram_points s [])
                         (MultiSeries.ys spread_series) in
       plot (Nested (map snd charts)) (Some (Nested (map fst charts)))
            (<["lines" := dict_get ∅ "lines" (VBool true)]> ∅)
            (mkWorld [] [])).
Proof.
  assert (MultiSeries.new None spread_values = Ok spread_series) as Hs
    by reflexivity.
  assert (PyFloat.gt (default (MultiSeries.y_max spread_series) None)
                     (default (MultiSeries.y_min spread_series) None) = true)
    as Hgt by reflexivity.
  assert (-3 < 0) as Hbins by lia.
  split; [exact Hs|]. split; [exact Hgt|]. split; [exact Hbins|].
  exact (histogram_negative_bins spread_values (-3) None None ∅
           spread_series (mkWorld [] []) Hs Hgt Hbins).
Defined.

Lemma histogram_zero_bins_witness :
  MultiSeries.new None spread_values = Ok spread_series
  ∧ PyFloat.gt 5 0 = true
  ∧ histogram spread_values 0 (Some 0%float) (Some 5%float) ∅ (mkWorld [] [])
    = (Raised ZeroDivisionError, mkWorld [] []).
Proof.
  assert (MultiSeries.new None spread_values = Ok spread_series) as Hs
    by reflexivity.
  assert (PyFloat.gt 5 0 = true) as Hgt by reflexivity.
  split; [exact Hs|]. split; [exact Hgt|].
  exact (histogram_zero_bins spread_values 0%float 5%float ∅ spread_series
           (mkWorld [] []) Hs Hgt).
Defined.

Lemma histogram_nan_limit_witness :
  MultiSeries.new None spread_values = Ok spread_series
  ∧ is_nan (default (MultiSeries.y_min spread_series) (Some nan))
    || is_nan (default (MultiSeries.y_max spread_series) None) = true
  ∧ histogram spread_values 20 (Some nan) None ∅ (mkWorld [] [])
    = (Raised AssertionError, mkWorld [] []).
Proof.
  assert (MultiSeries.new None spread_values = Ok spread_series) as Hs
    by reflexivity.
  assert (is_nan (default (MultiSeries.y_min spread_series) (Some nan))
          || is_nan (default (MultiSeries.y_max spread_series) None) = true)
    as Hnan by reflexivity.
  split; [exact Hs|]. split; [exact Hnan|].
  exact (histogram_nan_limit spread_values 20 (Some nan) None ∅
           spread_series (mkWorld [] []) Hs Hnan).
Defined.

Lemma histogram_first_edge_witness :
  PyFloat.gt (MultiSeries.y_max spread_series)
             (MultiSeries.y_min spread_series) = true
  ∧ 0 < 3
  ∧ (0 <? PyFloat.of_Z 3)%float = true
  ∧ is_infinity (PyFloat.of_Z 3) = false
  ∧ is_finite
      ((MultiSeries.y_max spread_series
        + 0.1 * (MultiSeries.y_max spread_series
                 - MultiSeries.y_min spread_series))
       - (MultiSeries.y_min spread_series
          - 0.1 * (MultiSeries.y_max spread_series
                   - MultiSeries.y_min spread_series)))%float = true
  ∧ ∃ first rest,
      histogram_bin_edges spread_series 3 None None = Ok (first :: rest)
      ∧ (first =? MultiSeries.y_min spread_series
                  - 0.1 * (MultiSeries.y_max spread_series
                           - MultiSeries.y_min spread_series))%float = true.
Proof.
  assert (PyFloat.gt (MultiSeries.y_max spread_series)
                     (MultiSeries.y_min spread_series) = true) as Hgt
    by reflexivity.
  assert (0 < 3) as Hbins by lia.
  assert ((0 <? PyFloat.of_Z 3)%float = true) as Hpos by reflexivity.
  assert (is_infinity (PyFloat.of_Z 3) = false) as Hfin by reflexivity.
  assert (is_finite
            ((MultiSeries.y_max spread_series
              + 0.1 * (MultiSeries.y_max spread_series
                       - MultiSeries.y_min spread_series))
             - (MultiSeries.y_min spread_series
                - 0.1 * (MultiSeries.y_max spread_series
                         - MultiSeries.y_min spread_series)))%float = true)
    as Hspan by reflexivity.
  split; [exact Hgt|]. split; [exact Hbins|]. split; [exact Hpos|].
  split; [exact Hfin|]. split; [exact Hspan|].
  exact (histogram_first_edge spread_series 3 None None
           Hgt Hbins Hpos Hfin Hspan).
Defined.

Lemma idle_key_redraws_same_body_witness :
  Options.interactive example_options = true
  ∧ (table_action (lower "x") = NoOp ∨ table_action (lower "x") = Stop)
  ∧ interactive_loop 3 example_series example_options
                     (mkWorld [] ["x"; "q"]) =
      interactive_loop 2 example_series (key_step example_options "x")
        (mkWorld ([] ++ [EvPrint prompt; EvGetch "x";
                         EvErase (nr_lines_to_erase example_options);
                         EvPrint (_generate_plot_str example_series
                                                     example_options false)])
                 ["q"])
  ∧ Options.bounds (key_step example_options "x")
    = Options.bounds example_options.
Proof.
  assert (Options.interactive example_options = true) as Hi by reflexivity.
  assert (table_action (lower "x") = NoOp ∨ table_action (lower "x") = Stop)
    as Hkey by (left; reflexivity).
  split; [exact Hi|]. split; [exact Hkey|].
  exact (idle_key_redraws_same_body 2 example_series example_options "x"
           ["q"] [] Hi Hkey).
Defined.
